(** * one-system backend: authentication and authorization core

    A shallow embedding of [app/core/config.py], [app/core/security.py],
    [app/core/rbac.py] and the development middleware of [app/main.py],
    followed by the properties established about them.

    Conventions of the embedding:
    - Python [str] is [string]; [dict] keyed by strings is [gmap string _];
      JSON values (token header, token claims) are the type [json].
    - [time.monotonic()] and the wall clock are integer readings passed
      explicitly; the module globals [_jwks_cache] and [_jwks_fetched_at] are
      the fields of [World], threaded through the monad [M].
    - [http_gets] is an instrumentation counter: the number of GET requests
      issued to the identity provider so far.  The source has no such
      variable; it only records the effect of [client.get].
    - A raised [HTTPException] is [HTTPError]; an exception the code does not
      catch is [Unhandled].
    - The python-jose functions used by the verifier are an interface,
      [JoseLib]; [Fabricated] is an executable instance built from a table of
      fabricated tokens, in the manner of [tests/test_security.py]. *)

From stdpp Require Import gmap strings list fin_maps.
From Stdlib Require Import ZArith Ascii String.

Set Warnings "-register-all".
#[local] Open Scope Z_scope.
#[local] Open Scope string_scope.

(* ===================================================================== *)
(** ** Python values *)
(* ===================================================================== *)

(** JSON values as [json.loads] produces them.  Numbers are kept as
    integers: no claim read by this code is fractional. *)
Inductive json : Type :=
  | JNull
  | JBool (b : bool)
  | JNum (n : Z)
  | JStr (s : string)
  | JArr (l : list json)
  | JObj (o : list (string * json)).

(** [hash(v)] succeeds: lists and dicts are unhashable in Python. *)
Definition hashable (v : json) : bool :=
  match v with
  | JArr _ | JObj _ => false
  | _ => true
  end.

(** [v == s] for a Python string [s]. *)
Definition json_eq_str (v : option json) (s : string) : bool :=
  match v with
  | Some (JStr t) => bool_decide (t = s)
  | _ => false
  end.

(** Truthiness of [str | None]: [None] and the empty string are falsy. *)
Definition truthy (o : option string) : bool :=
  match o with
  | Some s => negb (bool_decide (s = ""))
  | None => false
  end.

(** [str.lower()] on ASCII text. *)
Definition lower_ascii (c : ascii) : ascii :=
  let n := nat_of_ascii c in
  if (Nat.leb 65 n && Nat.leb n 90)%bool then ascii_of_nat (n + 32) else c.

Fixpoint py_lower (s : string) : string :=
  match s with
  | EmptyString => EmptyString
  | String c r => String (lower_ascii c) (py_lower r)
  end.

(** [repr(s)] for a string of printable ASCII: single quotes unless the
    text holds a single quote and no double quote; the quote in use and the
    backslash are escaped. *)
Definition squote : ascii := "039"%char.
Definition dquote : ascii := "034"%char.
Definition bslash : ascii := "092"%char.

Fixpoint has_char (c : ascii) (s : string) : bool :=
  match s with
  | EmptyString => false
  | String d r => (Ascii.eqb c d || has_char c r)%bool
  end.

Fixpoint escape (q : ascii) (s : string) : string :=
  match s with
  | EmptyString => EmptyString
  | String c r =>
      if (Ascii.eqb c q || Ascii.eqb c bslash)%bool
      then String bslash (String c (escape q r))
      else String c (escape q r)
  end.

Definition py_repr (s : string) : string :=
  let q := if (has_char squote s && negb (has_char dquote s))%bool
           then dquote else squote in
  String q (escape q s ++ String q EmptyString).

Fixpoint join_comma (l : list string) : string :=
  match l with
  | [] => ""
  | [x] => x
  | x :: r => x ++ ", " ++ join_comma r
  end.

(** [str(list(roles))], as an f-string renders it. *)
Definition py_list_repr (l : list string) : string :=
  "[" ++ join_comma (map py_repr l) ++ "]".

(* ===================================================================== *)
(** ** Settings ([app/core/config.py]) *)
(* ===================================================================== *)

Record Settings : Type := {
  environment : string;
  aws_region : string;
  cognito_user_pool_id : string;
  cognito_app_client_id : string;
  dev_skip_auth : bool;
  jwks_cache_ttl : Z
}.

(** The field defaults of the class. *)
Definition default_settings : Settings := {|
  environment := "development";
  aws_region := "ap-southeast-7";
  cognito_user_pool_id := "";
  cognito_app_client_id := "";
  dev_skip_auth := false;
  jwks_cache_ttl := 86400
|}.

Definition is_development (s : Settings) : bool :=
  bool_decide (py_lower (environment s) = "development").

Definition auth_disabled (s : Settings) : bool :=
  is_development s && dev_skip_auth s.

Definition cognito_configured (s : Settings) : bool :=
  negb (bool_decide (cognito_user_pool_id s = ""))
  && negb (bool_decide (cognito_app_client_id s = "")).

(** [validate_environment]: the accepted names, stored in lower case. *)
Definition validate_environment (v : string) : option string :=
  let l := py_lower v in
  if bool_decide (l ∈ ["development"; "staging"; "production"])
  then Some l else None.

(* ===================================================================== *)
(** ** Exceptions and results *)
(* ===================================================================== *)

Record HTTPException : Type := {
  status_code : Z;
  detail : string;
  headers : list (string * string)
}.

(** Exceptions raised under the code that no handler of the module catches. *)
Inductive PyExc : Type :=
  | TypeError
  | JWKError.

Inductive result (A : Type) : Type :=
  | Ok (a : A)
  | HTTPError (e : HTTPException)
  | Unhandled (x : PyExc).
Arguments Ok {A} a.
Arguments HTTPError {A} e.
Arguments Unhandled {A} x.

Definition http401 (d : string) : HTTPException :=
  {| status_code := 401; detail := d; headers := [] |}.
Definition http503 (d : string) : HTTPException :=
  {| status_code := 503; detail := d; headers := [] |}.

(** The exceptions of the module, under the names of the error taxonomy. *)
Definition MalformedToken : HTTPException := http401 "Invalid token header".
Definition UnknownKey : HTTPException := http401 "Token key not found".
Definition Expired : HTTPException := http401 "Token has expired".
Definition VerificationFailed : HTTPException :=
  http401 "Token verification failed".
Definition WrongIssuer : HTTPException := http401 "Invalid token issuer".
Definition WrongTokenUse : HTTPException := http401 "Expected access token".
Definition NoDevUser : HTTPException :=
  http401 ("Dev auth: no matching user found. "
           ++ "Set X-Dev-User-ID header or create an admin user first.").
(** Unauthenticated, no bearer token on the request. *)
Definition NotAuthenticated : HTTPException :=
  {| status_code := 401; detail := "Not authenticated";
     headers := [("WWW-Authenticate", "Bearer")] |}.
(** Unauthenticated, no such user or user disabled. *)
Definition UserNotFoundOrInactive : HTTPException :=
  http401 "User not found or inactive".
Definition ServiceUnavailable : HTTPException :=
  http503 "Authentication service unavailable".
Definition AuthNotConfigured : HTTPException :=
  http503 "Authentication is not configured on this server".
Definition Forbidden (roles : list string) : HTTPException :=
  {| status_code := 403;
     detail := "Requires one of roles: " ++ py_list_repr roles;
     headers := [] |}.

(* ===================================================================== *)
(** ** Module state and its monad *)
(* ===================================================================== *)

(** A published signing key, one entry of the provider's [keys] array. *)
Record Jwk : Type := {
  kid : string;
  alg : option string;
  material : Z
}.

Record World : Type := {
  jwks_cache : gmap string Jwk;
  jwks_fetched_at : Z;
  http_gets : nat
}.

(** State at import time: [_jwks_cache = {}], [_jwks_fetched_at = 0.0]. *)
Definition initial_world : World :=
  {| jwks_cache := ∅; jwks_fetched_at := 0; http_gets := 0 |}.

Definition M (A : Type) : Type := World -> result A * World.

Definition ret {A} (a : A) : M A := fun w => (Ok a, w).
Definition raise {A} (e : HTTPException) : M A := fun w => (HTTPError e, w).
Definition lift {A} (r : result A) : M A := fun w => (r, w).
Definition bind {A B} (m : M A) (k : A -> M B) : M B :=
  fun w =>
    match m w with
    | (Ok a, w') => k a w'
    | (HTTPError e, w') => (HTTPError e, w')
    | (Unhandled x, w') => (Unhandled x, w')
    end.

Declare Scope auth_scope.
Delimit Scope auth_scope with auth.
Notation "x <- m ;; k" := (bind m (fun x => k))
  (at level 100, m at next level, right associativity) : auth_scope.
#[local] Open Scope auth_scope.

(* ===================================================================== *)
(** ** JWKS cache ([_get_jwks]) *)
(* ===================================================================== *)

(** What [client.get(jwks_url)] followed by [raise_for_status], [json()] and
    the comprehension over [keys] comes to: the list of published keys, or
    any exception raised between the [try] and the assignment. *)
Inductive FetchOutcome : Type :=
  | FetchOk (keys : list Jwk)
  | FetchFail.

Definition jwks_url (s : Settings) : string :=
  "https://cognito-idp." ++ aws_region s ++ ".amazonaws.com/"
  ++ cognito_user_pool_id s ++ "/.well-known/jwks.json".

(** [{k["kid"]: k for k in keys}]: a later entry replaces an earlier one. *)
Definition index_by_kid (keys : list Jwk) : gmap string Jwk :=
  fold_left (fun m k => <[kid k := k]> m) keys ∅.

(** The test [_jwks_cache and (now - _jwks_fetched_at) < ttl]: an empty dict
    is falsy. *)
Definition cache_is_fresh (s : Settings) (now : Z) (w : World) : bool :=
  bool_decide (jwks_cache w ≠ ∅)
  && bool_decide (now - jwks_fetched_at w < jwks_cache_ttl s).

Definition _get_jwks (s : Settings) (now : Z) (net : string -> FetchOutcome)
  : M (gmap string Jwk) :=
  fun w =>
    if cache_is_fresh s now w
    then (Ok (jwks_cache w), w)
    else if negb (cognito_configured s)
    then (Ok ∅, w)
    else
      let gets := S (http_gets w) in
      match net (jwks_url s) with
      | FetchOk keys =>
          let c := index_by_kid keys in
          (Ok c, {| jwks_cache := c; jwks_fetched_at := now;
                    http_gets := gets |})
      | FetchFail =>
          let w' := {| jwks_cache := jwks_cache w;
                       jwks_fetched_at := jwks_fetched_at w;
                       http_gets := gets |} in
          if bool_decide (jwks_cache w ≠ ∅)
          then (Ok (jwks_cache w), w')
          else (HTTPError ServiceUnavailable, w')
      end.

(* ===================================================================== *)
(** ** The python-jose interface *)
(* ===================================================================== *)

(** Outcome of [jwt.decode]: the claims, or one of the two exception classes
    the verifier tells apart ([ExpiredSignatureError] is a [JWTError]). *)
Inductive DecodeResult : Type :=
  | Decoded (payload : gmap string json)
  | ExpiredSignatureError
  | JWTError.

(** The three library entry points used by [_verify_cognito_jwt].
    - [get_unverified_header token]: the header object, [None] for
      [JWTError];
    - [jwk_construct k]: the key object, [None] for the library's [JWKError];
    - [jwt_decode wall token key]: [jwt.decode] with [algorithms=["RS256"]]
      and the audience check off, read at wall-clock time [wall]. *)
Class JoseLib : Type := {
  SigKey : Type;
  get_unverified_header : string -> option (gmap string json);
  jwk_construct : Jwk -> option SigKey;
  jwt_decode : Z -> string -> SigKey -> DecodeResult
}.

(* ===================================================================== *)
(** ** Users and the lookups of the resolver *)
(* ===================================================================== *)

Record User : Type := {
  id : Z;
  cognito_user_id : string;
  full_name : string;
  email : option string;
  role : string;
  is_active : bool;
  created_at : Z
}.

(** [select(User).where(User.cognito_user_id == sub)] then
    [.scalars().first()].  The table is the list of its rows in the order the
    store yields them.  A missing [sub] claim compares the non-null column
    with NULL and selects nothing. *)
Definition find_user_by_sub (db : list User) (sub : option json)
  : option User :=
  match sub with
  | Some (JStr s) => find (fun u => bool_decide (cognito_user_id u = s)) db
  | _ => None
  end.

(** [select(User).where(User.role == "ADMIN", User.is_active.is_(True))
    .limit(1)] then [.scalars().first()]. *)
Definition find_first_admin (db : list User) : option User :=
  find (fun u => bool_decide (role u = "ADMIN") && is_active u) db.

(** What a request is served with: the rows of [users], the two clocks and
    the provider's answer to a GET. *)
Record Env : Type := {
  db : list User;
  wall_clock : Z;
  monotonic : Z;
  net : string -> FetchOutcome
}.

(** The inbound request as the core reads it: the bearer token extracted by
    [oauth2_scheme] ([None] without an Authorization bearer header) and the
    [X-Dev-User-ID] header. *)
Record Request : Type := {
  bearer : option string;
  x_dev_user_id : option string
}.

Section Core.
Context `{JoseLib}.

(* ------------------------------------------------------------------- *)
(** *** Token verifier ([_verify_cognito_jwt]) *)
(* ------------------------------------------------------------------- *)

Definition expected_issuer (s : Settings) : string :=
  "https://cognito-idp." ++ aws_region s ++ ".amazonaws.com/"
  ++ cognito_user_pool_id s.

(** [kid not in jwks], then [jwks[kid]]: membership hashes [kid] first,
    whatever the dict holds; [header.get("kid")] is [None] when absent. *)
Definition lookup_kid (hdr : gmap string json) (jwks : gmap string Jwk)
  : result (option Jwk) :=
  match hdr !! "kid" with
  | None => Ok None
  | Some v =>
      if hashable v then
        match v with
        | JStr k => Ok (jwks !! k)
        | _ => Ok None
        end
      else Unhandled TypeError
  end.

Definition _verify_cognito_jwt (s : Settings) (wall : Z) (token : string)
    (jwks : gmap string Jwk) : result (gmap string json) :=
  match get_unverified_header token with
  | None => HTTPError MalformedToken
  | Some unverified_header =>
      match lookup_kid unverified_header jwks with
      | Unhandled x => Unhandled x
      | HTTPError e => HTTPError e
      | Ok None => HTTPError UnknownKey
      | Ok (Some entry) =>
          match jwk_construct entry with
          | None => Unhandled JWKError
          | Some key =>
              let issuer := expected_issuer s in
              match jwt_decode wall token key with
              | ExpiredSignatureError => HTTPError Expired
              | JWTError => HTTPError VerificationFailed
              | Decoded payload =>
                  if negb (json_eq_str (payload !! "iss") issuer)
                  then HTTPError WrongIssuer
                  else if negb (json_eq_str (payload !! "token_use")
                                            "access")
                  then HTTPError WrongTokenUse
                  else Ok payload
              end
          end
      end
  end.

(* ------------------------------------------------------------------- *)
(** *** Identity resolver ([get_current_user]) *)
(* ------------------------------------------------------------------- *)

(** The branch under [if settings.auth_disabled:].  [_dev_cognito_sub] is
    the value of the context variable for the request, [None] unless the
    development middleware set it. *)
Definition dev_bypass_path (env : Env) (_dev_cognito_sub : option string)
  : M User :=
  let user :=
    if truthy _dev_cognito_sub
    then find_user_by_sub (db env) (JStr <$> _dev_cognito_sub)
    else find_first_admin (db env) in
  match user with
  | Some u => ret u
  | None => raise NoDevUser
  end.

(** The rest of the body, under the banner "Production: Cognito JWT". *)
Definition production_path (s : Settings) (env : Env)
    (token : option string) : M User :=
  match token with
  | Some tok =>
      if bool_decide (tok = "") then raise NotAuthenticated
      else if negb (cognito_configured s) then raise AuthNotConfigured
      else
        jwks <- _get_jwks s (monotonic env) (net env) ;;
        payload <- lift (_verify_cognito_jwt s (wall_clock env) tok jwks) ;;
        let cognito_sub := payload !! "sub" in
        match find_user_by_sub (db env) cognito_sub with
        | Some u =>
            if is_active u then ret u else raise UserNotFoundOrInactive
        | None => raise UserNotFoundOrInactive
        end
  | None => raise NotAuthenticated
  end.

Definition get_current_user (s : Settings) (env : Env)
    (token : option string) (_dev_cognito_sub : option string) : M User :=
  if auth_disabled s
  then dev_bypass_path env _dev_cognito_sub
  else production_path s env token.

(* ------------------------------------------------------------------- *)
(** *** Role guard ([require_role]) *)
(* ------------------------------------------------------------------- *)

(** [_check_role] with its [Depends(get_current_user)] passed as the
    computation [current_user]. *)
Definition _check_role (roles : list string) (current_user : M User)
  : M User :=
  u <- current_user ;;
  if negb (bool_decide (roles = [])) && negb (bool_decide (role u ∈ roles))
  then raise (Forbidden roles)
  else ret u.

Definition require_role (roles : list string) (s : Settings) (env : Env)
    (token : option string) (_dev_cognito_sub : option string) : M User :=
  _check_role roles (get_current_user s env token _dev_cognito_sub).

(* ------------------------------------------------------------------- *)
(** *** Development middleware ([create_app], [dev_auth_middleware]) *)
(* ------------------------------------------------------------------- *)

(** The value [set_dev_cognito_sub] leaves in the context variable. *)
Definition dev_auth_middleware (req : Request) : option string :=
  x_dev_user_id req.

(** The context variable as the dependency finds it: the middleware is
    installed only under [auth_disabled]; otherwise the variable keeps its
    default [None]. *)
Definition context_var (s : Settings) (req : Request) : option string :=
  if auth_disabled s then dev_auth_middleware req else None.

(** A request through the application to a route guarded by
    [Depends(get_current_user)]. *)
Definition resolve (s : Settings) (env : Env) (req : Request) : M User :=
  get_current_user s env (bearer req) (context_var s req).

(** The same for a route guarded by [Depends(require_role(...))]. *)
Definition guarded (roles : list string) (s : Settings) (env : Env)
    (req : Request) : M User :=
  require_role roles s env (bearer req) (context_var s req).

End Core.

(* ===================================================================== *)
(** ** Fabricated tokens: an executable [JoseLib] *)
(* ===================================================================== *)

Module Fabricated.

(** A token as the test-suite fabricates one: the header object ([None]
    for a string that is no JWT), the claims, and the key that signed it. *)
Record Token : Type := {
  header : option (gmap string json);
  claims : gmap string json;
  signer : Z
}.

(** [jwt.decode] checks the signature first and the [exp] claim after. *)
Definition decode (tbl : gmap string Token) (wall : Z) (token : string)
    (key : Z) : DecodeResult :=
  match tbl !! token with
  | None => JWTError
  | Some t =>
      if bool_decide (signer t = key) then
        match claims t !! "exp" with
        | Some (JNum e) =>
            if bool_decide (e < wall) then ExpiredSignatureError
            else Decoded (claims t)
        | _ => Decoded (claims t)
        end
      else JWTError
  end.

(** An entry without ["alg"] names no algorithm to build a key for. *)
Definition construct (k : Jwk) : option Z :=
  match alg k with
  | Some _ => Some (material k)
  | None => None
  end.

Definition jose (tbl : gmap string Token) : JoseLib := {|
  SigKey := Z;
  get_unverified_header := fun token => tbl !! token ≫= header;
  jwk_construct := construct;
  jwt_decode := decode tbl
|}.

(** *** Fixtures *)

Definition TEST_REGION : string := "ap-southeast-7".
Definition TEST_POOL_ID : string := "ap-southeast-7_TestPool".
Definition TEST_CLIENT_ID : string := "testclientid123".
Definition TEST_KID : string := "test-key-1".

Definition test_key : Jwk :=
  {| kid := TEST_KID; alg := Some "RS256"; material := 65537 |}.
Definition rotated_key : Jwk :=
  {| kid := "test-key-2"; alg := Some "RS256"; material := 65539 |}.
Definition FAKE_JWKS : gmap string Jwk := {[ TEST_KID := test_key ]}.

Definition settings_for (env_name : string) (skip : bool) : Settings := {|
  environment := env_name;
  aws_region := TEST_REGION;
  cognito_user_pool_id := TEST_POOL_ID;
  cognito_app_client_id := TEST_CLIENT_ID;
  dev_skip_auth := skip;
  jwks_cache_ttl := 86400
|}.

Definition _make_token (key_id : json) (sub iss token_use : string)
    (exp : Z) (signed_by : Z) : Token := {|
  header := Some {[ "alg" := JStr "RS256"; "kid" := key_id ]};
  claims := {[ "sub" := JStr sub; "iss" := JStr iss;
               "token_use" := JStr token_use; "exp" := JNum exp ]};
  signer := signed_by
|}.

Definition TEST_ISS : string :=
  "https://cognito-idp.ap-southeast-7.amazonaws.com/ap-southeast-7_TestPool".

(** The tokens the examples use, by their wire text. *)
Definition tokens : gmap string Token :=
  {[ "good" := _make_token (JStr TEST_KID) "sub-officer" TEST_ISS "access"
                 5000 65537;
     "rotated" := _make_token (JStr "test-key-2") "sub-officer" TEST_ISS
                    "access" 5000 65539;
     "listkid" := _make_token (JArr [JStr TEST_KID]) "sub-officer" TEST_ISS
                    "access" 5000 65537;
     "not.a.jwt" := {| header := None; claims := ∅; signer := 0 |} ]}.

Definition admin_old : User :=
  {| id := 1; cognito_user_id := "sub-admin-old"; full_name := "First Admin";
     email := Some "admin1@test.local"; role := "ADMIN"; is_active := true;
     created_at := 10 |}.
Definition admin_new : User :=
  {| id := 2; cognito_user_id := "sub-admin-new"; full_name := "Second Admin";
     email := Some "admin2@test.local"; role := "ADMIN"; is_active := true;
     created_at := 20 |}.
Definition officer : User :=
  {| id := 3; cognito_user_id := "sub-officer"; full_name := "Test Officer";
     email := Some "officer@test.local"; role := "OFFICER";
     is_active := true; created_at := 30 |}.
Definition disabled : User :=
  {| id := 4; cognito_user_id := "sub-disabled"; full_name := "Former Staff";
     email := None; role := "DISPATCHER"; is_active := false;
     created_at := 40 |}.

Definition users : list User := [admin_old; admin_new; officer; disabled].

Definition env_with (answer : FetchOutcome) (mono : Z) : Env :=
  {| db := users; wall_clock := 1000; monotonic := mono;
     net := fun _ => answer |}.

End Fabricated.

(* ===================================================================== *)
(** ** Definitions used by the statements *)
(* ===================================================================== *)

(** A sequence of [_get_jwks] calls, each at its own clock reading and with
    its own answer from the provider. *)
Fixpoint get_jwks_calls (s : Settings)
    (calls : list (Z * (string -> FetchOutcome))) (w : World)
  : list (result (gmap string Jwk)) * World :=
  match calls with
  | [] => ([], w)
  | (now, net) :: rest =>
      let '(r, w1) := _get_jwks s now net w in
      let '(rs, w2) := get_jwks_calls s rest w1 in
      (r :: rs, w2)
  end.

(** Fixtures for the cache: production settings, a cache holding the test
    key, and the state a successful fetch of an empty [keys] array leaves. *)
Definition prod_settings : Settings :=
  Fabricated.settings_for "production" false.

Definition warm_world : World :=
  {| jwks_cache := Fabricated.FAKE_JWKS; jwks_fetched_at := 100;
     http_gets := 1 |}.

Definition after_empty_fetch : World :=
  (_get_jwks prod_settings 100 (fun _ => FetchOk []) initial_world).2.

(** The settings with the development flag forced to [flag]. *)
Definition with_dev_skip_auth (flag : bool) (s : Settings) : Settings := {|
  environment := environment s;
  aws_region := aws_region s;
  cognito_user_pool_id := cognito_user_pool_id s;
  cognito_app_client_id := cognito_app_client_id s;
  dev_skip_auth := flag;
  jwks_cache_ttl := jwks_cache_ttl s
|}.

(** Following the spec's words, "the single most-recently-created active
    ADMIN user": among the rows that are active and ADMIN, one of greatest
    [created_at]. *)
Definition most_recent_active_admin (rows : list User) : option User :=
  fold_left
    (fun best u =>
       if bool_decide (role u = "ADMIN") && is_active u then
         match best with
         | Some b => if bool_decide (created_at b < created_at u)
                     then Some u else Some b
         | None => Some u
         end
       else best)
    rows None.

(** Fixtures for requests. *)
Definition fab : JoseLib := Fabricated.jose Fabricated.tokens.
Definition dev_settings : Settings :=
  Fabricated.settings_for "development" true.
Definition prod_flagged : Settings :=
  Fabricated.settings_for "production" true.
Definition quiet_env : Env := Fabricated.env_with FetchFail 200.
Definition rotating_env : Env :=
  Fabricated.env_with
    (FetchOk [Fabricated.test_key; Fabricated.rotated_key]) 200.
Definition with_header (hdr : option string) : Request :=
  {| bearer := None; x_dev_user_id := hdr |}.
Definition with_token (tok : string) : Request :=
  {| bearer := Some tok; x_dev_user_id := None |}.

(** A table in which a row carries the empty subject. *)
Definition blank_subject : User :=
  {| id := 5; cognito_user_id := ""; full_name := "Imported Row";
     email := None; role := "OFFICER"; is_active := true; created_at := 5 |}.

Definition blank_env : Env :=
  {| db := blank_subject :: Fabricated.users; wall_clock := 1000;
     monotonic := 200; net := fun _ => FetchFail |}.

(** A fabricated token whose header has no ["kid"]. *)
Definition no_kid_tokens : gmap string Fabricated.Token :=
  {[ "nokid" := {| Fabricated.header := Some {[ "alg" := JStr "RS256" ]};
                   Fabricated.claims := ∅; Fabricated.signer := 65537 |} ]}.

(* ===================================================================== *)
(** ** Database credentials ([Settings._resolve_db_credentials]) *)
(* ===================================================================== *)

(** The database fields of [Settings]. *)
Record DbSettings : Type := {
  db_host : string;
  db_port : Z;
  db_name : string;
  db_user : string;
  db_password : string;
  local_db_host : string;
  local_db_port : Z;
  local_db_name : string;
  local_db_user : string;
  local_db_password : string
}.

Definition default_db_settings : DbSettings := {|
  db_host := ""; db_port := 5432; db_name := "one_system";
  db_user := "postgres"; db_password := "";
  local_db_host := "localhost"; local_db_port := 5433;
  local_db_name := "one_system_dev"; local_db_user := "postgres";
  local_db_password := "localpassword"
|}.

(** What [get_secret_value] and [json.loads] come to: the secret as an
    object of strings, or any exception between the [try] and the
    [return]. *)
Inductive SecretOutcome : Type :=
  | SecretOk (creds : gmap string string)
  | SecretFail.

Record Credentials : Type := {
  c_host : string;
  c_port : Z;
  c_name : string;
  c_user : string;
  c_password : string
}.

(** The function returns the five credentials or raises [RuntimeError] with
    a message. *)
Definition _fetch_db_credentials_from_secrets_manager
    (secret : SecretOutcome) (default_user : string)
  : string * string + string :=
  match secret with
  | SecretOk creds =>
      inl (default "" (creds !! "password"),
           default default_user (creds !! "username"))
  | SecretFail => inr "Cannot connect to database: missing credentials"
  end.

Definition _resolve_db_credentials (s : Settings) (d : DbSettings)
    (secret : SecretOutcome) : Credentials + string :=
  if is_development s then
    inl {| c_host := local_db_host d; c_port := local_db_port d;
           c_name := local_db_name d; c_user := local_db_user d;
           c_password := local_db_password d |}
  else
    let host := db_host d in
    let fetched :=
      if negb (bool_decide (host = "")) && bool_decide (db_password d = "")
      then _fetch_db_credentials_from_secrets_manager secret (db_user d)
      else inl (db_password d, db_user d) in
    match fetched with
    | inr msg => inr msg
    | inl (password, user) =>
        if bool_decide (host = "")
        then inr ("DB_HOST is not set. "
                  ++ "Run 'cdk deploy --all' and update your .env.")
        else inl {| c_host := host; c_port := db_port d;
                    c_name := db_name d; c_user := user;
                    c_password := password |}
    end.

(* ===================================================================== *)
(** ** Reference-data cache ([app/api/v1/reference.py]) *)
(* ===================================================================== *)

Definition _CACHE_TTL : Z := 300.

Section RefCache.
(** The cached values, [Any] in the source. *)
Context {A : Type}.

(** [_cache_get] at clock reading [now]: the value and the dict it
    leaves. *)
Definition _cache_get (now : Z) (key : string) (c : gmap string (Z * A))
  : option A * gmap string (Z * A) :=
  match c !! key with
  | Some (ts, value) =>
      if bool_decide (now - ts < _CACHE_TTL) then (Some value, c)
      else (None, delete key c)
  | None => (None, c)
  end.

Definition _cache_set (now : Z) (key : string) (value : A)
    (c : gmap string (Z * A)) : gmap string (Z * A) :=
  <[key := (now, value)]> c.

(** The body shared by [get_service_types], [get_complaint_types],
    [get_closure_reasons] and [get_sla_config]: [rows] is what the ordered
    query yields if it is run; [now] is the clock at [_cache_get], [later]
    the clock at [_cache_set], after the query. *)
Definition cached_listing (key : string) (now later : Z) (rows : A)
    (c : gmap string (Z * A)) : A * gmap string (Z * A) :=
  match _cache_get now key c with
  | (Some cached, c1) => (cached, c1)
  | (None, c1) => (rows, _cache_set later key rows c1)
  end.

Definition get_service_types := cached_listing "service_types".
Definition get_complaint_types := cached_listing "complaint_types".
Definition get_closure_reasons := cached_listing "closure_reasons".
Definition get_sla_config := cached_listing "sla_config".

End RefCache.

(* ===================================================================== *)
(** ** User management ([app/api/v1/users.py]) *)
(* ===================================================================== *)

(** A row of [users]: the columns the resolver reads, and
    [responsible_province]. *)
Record UserRow : Type := {
  core : User;
  responsible_province : option string
}.

(** [Literal["ADMIN", "DISPATCHER", "OFFICER", "EXECUTIVE"]]. *)
Inductive Role : Type := ADMIN | DISPATCHER | OFFICER | EXECUTIVE.

Definition role_name (r : Role) : string :=
  match r with
  | ADMIN => "ADMIN"
  | DISPATCHER => "DISPATCHER"
  | OFFICER => "OFFICER"
  | EXECUTIVE => "EXECUTIVE"
  end.

Record UserCreate : Type := {
  uc_full_name : string;
  uc_email : string;
  uc_role : Role;
  uc_responsible_province : option string
}.

Record UserUpdate : Type := {
  uu_full_name : option string;
  uu_role : option Role;
  uu_responsible_province : option string;
  uu_is_active : option bool
}.

Record UserResponse : Type := {
  r_id : Z;
  r_full_name : string;
  r_email : option string;
  r_role : string;
  r_responsible_province : option string;
  r_is_active : bool;
  r_created_at : Z
}.

Record UserListResponse : Type := {
  l_items : list UserResponse;
  l_total : Z;
  l_page : Z;
  l_page_size : Z;
  l_pages : Z
}.

(** [UserResponse.model_validate(user)]. *)
Definition model_validate (u : UserRow) : UserResponse := {|
  r_id := id (core u);
  r_full_name := full_name (core u);
  r_email := email (core u);
  r_role := role (core u);
  r_responsible_province := responsible_province u;
  r_is_active := is_active (core u);
  r_created_at := created_at (core u)
|}.

(** The calls made to the Cognito identity provider, in order. *)
Inductive CognitoCall : Type :=
  | AdminCreateUser (username name : string)
  | AdminAddUserToGroup (username group : string)
  | AdminResetUserPassword (username : string)
  | AdminDisableUser (username : string).

(** The answer to [admin_create_user]: the value of the first attribute of
    the created user, the provider's [UsernameExistsException], or any other
    exception under the [try]. *)
Inductive CreateOutcome : Type :=
  | CreateOk (sub : string)
  | UsernameExists
  | CreateFail.

(** How the provider behaves: whether [boto3.client] can be built, and the
    answers to the calls whose outcome the code reads. *)
Record Cognito : Type := {
  client_ok : bool;
  create_answer : string -> CreateOutcome;
  reset_ok : string -> bool
}.

(** The table and the provider calls made so far. *)
Record Backend : Type := {
  users_table : list UserRow;
  cognito_calls : list CognitoCall
}.

(** Values drawn while a row is created: [uuid.uuid4()] for the primary
    key, [str(uuid.uuid4())] for a synthetic subject, the server's
    [now()]. *)
Record Fresh : Type := {
  new_id : Z;
  new_sub : string;
  now_ts : Z
}.

(** Exceptions that leave an endpoint without being an [HTTPException]. *)
Inductive ApiCrash : Type :=
  | AuthCrash (x : PyExc)
  | ZeroDivisionError
  | StoreError
  | IntegrityError.

Inductive api_result (A : Type) : Type :=
  | Returned (a : A)
  | Raised (e : HTTPException)
  | Crashed (x : ApiCrash).
Arguments Returned {A} a.
Arguments Raised {A} e.
Arguments Crashed {A} x.

Definition http_error (code : Z) (d : string) : HTTPException :=
  {| status_code := code; detail := d; headers := [] |}.

Definition EmailExists : HTTPException :=
  http_error 409 "A user with this email already exists".
Definition EmailExistsInCognito : HTTPException :=
  http_error 409 "A user with this email already exists in Cognito".
Definition CognitoCreateFailed : HTTPException :=
  http_error 502 "Failed to create user in authentication system".
Definition CognitoResetFailed : HTTPException :=
  http_error 502 "Failed to trigger password reset in authentication system".
Definition UserNotFound : HTTPException := http_error 404 "User not found".
Definition NoEmailAddress : HTTPException :=
  http_error 400 "User has no email address".

(** [_cognito_client() is not None]. *)
Definition _cognito_client (s : Settings) (cog : Cognito) : bool :=
  cognito_configured s && client_ok cog.

(** [_cognito_create_user]: the subject or [None], or the exception raised;
    and the calls made. *)
Definition _cognito_create_user (cog : Cognito) (client : bool)
    (mail name : string) (calls : list CognitoCall)
  : (option string + HTTPException) * list CognitoCall :=
  if client then
    let calls' := (calls ++ [AdminCreateUser mail name])%list in
    match create_answer cog mail with
    | CreateOk sub => (inl (Some sub), calls')
    | UsernameExists => (inr EmailExistsInCognito, calls')
    | CreateFail => (inr CognitoCreateFailed, calls')
    end
  else (inl None, calls).

(** [_cognito_add_to_group] and [_cognito_disable_user]: a failure is logged
    and swallowed. *)
Definition _cognito_add_to_group (client : bool) (mail group : string)
    (calls : list CognitoCall) : list CognitoCall :=
  if client then (calls ++ [AdminAddUserToGroup mail group])%list else calls.

Definition _cognito_disable_user (client : bool) (mail : string)
    (calls : list CognitoCall) : list CognitoCall :=
  if client then (calls ++ [AdminDisableUser mail])%list else calls.

Definition find_by_id (user_id : Z) (tbl : list UserRow) : option UserRow :=
  find (fun r => bool_decide (id (core r) = user_id)) tbl.

Definition find_by_email (mail : string) (tbl : list UserRow)
  : option UserRow :=
  find (fun r => bool_decide (email (core r) = Some mail)) tbl.

(** [len(s)] for UTF-8 text: the bytes that continue a character are not
    counted. *)
Fixpoint char_count (s : string) : Z :=
  match s with
  | EmptyString => 0
  | String c r =>
      (if Nat.eqb (Nat.div (nat_of_ascii c) 64) 2 then 0 else 1)
      + char_count r
  end.

(** The column widths of [users]: VARCHAR(200) for [cognito_user_id],
    [full_name] and [email], VARCHAR(20) for [role], VARCHAR(100) for
    [responsible_province]. *)
Definition fits_columns (u : UserRow) : bool :=
  bool_decide (char_count (cognito_user_id (core u)) <= 200)
  && bool_decide (char_count (full_name (core u)) <= 200)
  && bool_decide (char_count (default "" (email (core u))) <= 200)
  && bool_decide (char_count (role (core u)) <= 20)
  && bool_decide (char_count (default "" (responsible_province u)) <= 100).

(** The body of [create_user].  The table has a primary key on [id] and a
    unique constraint on [cognito_user_id]: a commit that breaks either, or
    a column width, raises and adds nothing. *)
Definition create_user_body (s : Settings) (cog : Cognito) (fresh : Fresh)
    (payload : UserCreate) (st : Backend) : api_result UserResponse * Backend :=
  match find_by_email (uc_email payload) (users_table st) with
  | Some _ => (Raised EmailExists, st)
  | None =>
      let client := _cognito_client s cog in
      match _cognito_create_user cog client (uc_email payload)
              (uc_full_name payload) (cognito_calls st) with
      | (inr e, calls) =>
          (Raised e, {| users_table := users_table st;
                        cognito_calls := calls |})
      | (inl answer, calls) =>
          let cognito_sub := default (new_sub fresh) answer in
          let user :=
            {| core := {| id := new_id fresh;
                          cognito_user_id := cognito_sub;
                          full_name := uc_full_name payload;
                          email := Some (uc_email payload);
                          role := role_name (uc_role payload);
                          is_active := true;
                          created_at := now_ts fresh |};
               responsible_province := uc_responsible_province payload |} in
          if negb (fits_columns user)
          then (Crashed StoreError,
                {| users_table := users_table st; cognito_calls := calls |})
          else
          if bool_decide (new_id fresh ∈ map (fun r => id (core r))
                                             (users_table st))
             || bool_decide (cognito_sub
                               ∈ map (fun r => cognito_user_id (core r))
                                     (users_table st))
          then (Crashed IntegrityError,
                {| users_table := users_table st; cognito_calls := calls |})
          else
            (Returned (model_validate user),
             {| users_table := (users_table st ++ [user])%list;
                cognito_calls :=
                  _cognito_add_to_group client (uc_email payload)
                    (role_name (uc_role payload)) calls |})
      end
  end.

(** The assignments of [update_user] to the row found. *)
Definition apply_update (payload : UserUpdate) (u : UserRow) : UserRow := {|
  core := {| id := id (core u);
             cognito_user_id := cognito_user_id (core u);
             full_name := default (full_name (core u)) (uu_full_name payload);
             email := email (core u);
             role := default (role (core u))
                       (role_name <$> uu_role payload);
             is_active := default (is_active (core u)) (uu_is_active payload);
             created_at := created_at (core u) |};
  responsible_province :=
    match uu_responsible_province payload with
    | Some p => Some p
    | None => responsible_province u
    end
|}.

(** The first row with the given [id], rewritten in place. *)
Fixpoint replace_by_id (user_id : Z) (u' : UserRow) (tbl : list UserRow)
  : list UserRow :=
  match tbl with
  | [] => []
  | r :: rest =>
      if bool_decide (id (core r) = user_id) then u' :: rest
      else r :: replace_by_id user_id u' rest
  end.

Definition update_user_body (s : Settings) (cog : Cognito) (user_id : Z)
    (payload : UserUpdate) (st : Backend) : api_result UserResponse * Backend :=
  match find_by_id user_id (users_table st) with
  | None => (Raised UserNotFound, st)
  | Some user =>
      let user' := apply_update payload user in
      let calls :=
        match uu_is_active payload with
        | Some new_active =>
            if is_active (core user) && negb new_active
               && truthy (email (core user))
            then _cognito_disable_user (_cognito_client s cog)
                   (default "" (email (core user))) (cognito_calls st)
            else cognito_calls st
        | None => cognito_calls st
        end in
      if negb (fits_columns user')
      then (Crashed StoreError,
            {| users_table := users_table st; cognito_calls := calls |})
      else
        (Returned (model_validate user'),
         {| users_table := replace_by_id user_id user' (users_table st);
            cognito_calls := calls |})
  end.

(** The body of [list_users].  [users_table st] is the table in the order
    the store yields its rows to this request: the query has no ORDER BY, so
    the order is that of one scan and another request may see another.  The
    store is PostgreSQL: a negative LIMIT or OFFSET is refused by it.
    [math.ceil(total / page_size)] is the exact ceiling for every count a
    table can hold. *)
Definition list_users_body (page page_size : Z) (st : Backend)
  : api_result UserListResponse :=
  let page_size := Z.min page_size 100 in
  let offset := (page - 1) * page_size in
  let total := Z.of_nat (List.length (users_table st)) in
  if bool_decide (offset < 0) || bool_decide (page_size < 0)
  then Crashed StoreError
  else
    let users :=
      take (Z.to_nat page_size) (drop (Z.to_nat offset) (users_table st)) in
    if bool_decide (total = 0) then
      Returned {| l_items := map model_validate users; l_total := total;
                  l_page := page; l_page_size := page_size; l_pages := 0 |}
    else if bool_decide (page_size = 0) then Crashed ZeroDivisionError
    else
      Returned {| l_items := map model_validate users; l_total := total;
                  l_page := page; l_page_size := page_size;
                  l_pages := - ((- total) `div` page_size) |}.

(** An endpoint behind a dependency that resolves the caller: the body runs
    only if the dependency returned a user. *)
Definition behind {S A : Type} (dep : S -> M User)
    (body : User -> S -> api_result A * S)
  : World * S -> api_result A * (World * S) :=
  fun '(w, st) =>
    match dep st w with
    | (Ok u, w') => let '(r, st') := body u st in (r, (w', st'))
    | (HTTPError e, w') => (Raised e, (w', st))
    | (Unhandled x, w') => (Crashed (AuthCrash x), (w', st))
    end.

(** The request environment over the table as it stands. *)
Definition env_on (env : Env) (st : Backend) : Env :=
  {| db := map core (users_table st); wall_clock := wall_clock env;
     monotonic := monotonic env; net := net env |}.

Section UsersApi.
Context `{JoseLib}.

Definition admin_only (s : Settings) (env : Env) (req : Request)
  : Backend -> M User :=
  fun st => guarded ["ADMIN"] s (env_on env st) req.

Definition create_user (s : Settings) (env : Env) (cog : Cognito)
    (fresh : Fresh) (req : Request) (payload : UserCreate) :=
  behind (admin_only s env req)
    (fun _admin => create_user_body s cog fresh payload).

Definition update_user (s : Settings) (env : Env) (cog : Cognito)
    (req : Request) (user_id : Z) (payload : UserUpdate) :=
  behind (admin_only s env req)
    (fun _admin => update_user_body s cog user_id payload).

Definition list_users (s : Settings) (env : Env) (req : Request)
    (page page_size : Z) :=
  behind (admin_only s env req)
    (fun _admin st => (list_users_body page page_size st, st)).

End UsersApi.

(** The e-mail addresses present in the table. *)
Definition emails (tbl : list UserRow) : list string :=
  omap (fun r => email (core r)) tbl.



(** The items of a listing, none if the endpoint did not return. *)
Definition items_of (r : api_result UserListResponse) : list UserResponse :=
  match r with
  | Returned resp => l_items resp
  | _ => []
  end.

(** Fixtures: the fabricated users as a table, a provider that is not
    reachable, and the values drawn for a new row. *)
Definition as_row (u : User) : UserRow :=
  {| core := u; responsible_province := None |}.

Definition office : Backend :=
  {| users_table := map as_row Fabricated.users; cognito_calls := [] |}.

Definition no_cognito : Cognito :=
  {| client_ok := false; create_answer := fun _ => CreateFail;
     reset_ok := fun _ => false |}.

Definition fresh_values : Fresh :=
  {| new_id := 9; new_sub := "sub-new"; now_ts := 50 |}.

Definition new_dispatcher : UserCreate :=
  {| uc_full_name := "New Dispatcher"; uc_email := "new@test.local";
     uc_role := DISPATCHER; uc_responsible_province := None |}.

Definition deactivate : UserUpdate :=
  {| uu_full_name := None; uu_role := None;
     uu_responsible_province := None; uu_is_active := Some false |}.

Definition new_dispatcher_row : UserRow :=
  {| core := {| id := 9; cognito_user_id := "sub-new";
                full_name := "New Dispatcher";
                email := Some "new@test.local"; role := "DISPATCHER";
                is_active := true; created_at := 50 |};
     responsible_province := None |}.

(* ===================================================================== *)
(** ** What [jwt.decode] checks *)
(* ===================================================================== *)

(** The claims [jwt.decode] validates by itself, with the options of the
    call ([verify_aud] off, no issuer, subject or access token passed, no
    leeway): ["iat"], ["nbf"] and ["exp"] are read as integers, a ["nbf"]
    later than the clock is refused, an ["exp"] earlier than the clock is
    [ExpiredSignatureError], ["sub"] and ["jti"] must be strings, and an
    ["at_hash"] cannot be checked.  In that order. *)
Definition time_claim (c : gmap string json) (name : string) : option Z :=
  match c !! name with
  | Some (JNum n) => Some n
  | _ => None
  end.

(** The claim is absent or a JSON number. *)
Definition absent_or_number (c : gmap string json) (name : string) : bool :=
  match c !! name with
  | None | Some (JNum _) => true
  | _ => false
  end.

(** The claim is absent or a JSON string. *)
Definition absent_or_string (c : gmap string json) (name : string) : bool :=
  match c !! name with
  | None | Some (JStr _) => true
  | _ => false
  end.

Definition well_typed_times (c : gmap string json) : bool :=
  absent_or_number c "iat" && absent_or_number c "nbf"
  && absent_or_number c "exp".

Definition not_yet_valid (wall : Z) (c : gmap string json) : bool :=
  match time_claim c "nbf" with
  | Some n => bool_decide (wall < n)
  | None => false
  end.

Definition expired (wall : Z) (c : gmap string json) : bool :=
  match time_claim c "exp" with
  | Some e => bool_decide (e < wall)
  | None => false
  end.

(** [_validate_claims] on claims whose time claims are numbers. *)
Definition validate_registered (wall : Z) (c : gmap string json)
  : DecodeResult :=
  if not_yet_valid wall c then JWTError
  else if expired wall c then ExpiredSignatureError
  else if negb (absent_or_string c "sub") then JWTError
  else if negb (absent_or_string c "jti") then JWTError
  else if bool_decide (is_Some (c !! "at_hash")) then JWTError
  else Decoded c.

(** The conditions of [validate_registered] other than expiry. *)
Definition other_registered_claims_pass (wall : Z) (c : gmap string json)
  : bool :=
  well_typed_times c && negb (not_yet_valid wall c)
  && absent_or_string c "sub" && absent_or_string c "jti"
  && negb (bool_decide (is_Some (c !! "at_hash"))).

(** How [jwt.decode] comes to its outcome, for any implementation of the
    interface: [signature_verifies token entry] says that the published
    entry builds a key and that the RS256 signature of the token verifies
    under it; [claims_of token] is the payload of the token as a JSON
    object.  A signature that does not verify and a payload that is no
    object are [JWTError]; otherwise the registered claims decide. *)
Class JoseSpec `{JoseLib} : Type := {
  signature_verifies : string -> Jwk -> bool;
  claims_of : string -> option (gmap string json);
  verified_key_builds : forall token entry,
    signature_verifies token entry = true -> is_Some (jwk_construct entry);
  decode_bad_signature : forall wall token entry key,
    jwk_construct entry = Some key ->
    signature_verifies token entry = false ->
    jwt_decode wall token key = JWTError;
  decode_bad_payload : forall wall token entry key,
    jwk_construct entry = Some key ->
    signature_verifies token entry = true ->
    claims_of token = None ->
    jwt_decode wall token key = JWTError;
  decode_claims : forall wall token entry key c,
    jwk_construct entry = Some key ->
    signature_verifies token entry = true ->
    claims_of token = Some c ->
    well_typed_times c = true ->
    jwt_decode wall token key = validate_registered wall c
}.

(** An executable implementation that checks what [jwt.decode] checks, over
    a table of fabricated tokens. *)
Module Strict.

Definition signed_rs256_by (t : Fabricated.Token) (key : Z) : bool :=
  json_eq_str (Fabricated.header t ≫= (fun h => h !! "alg")) "RS256"
  && bool_decide (Fabricated.signer t = key).

Definition decode (tbl : gmap string Fabricated.Token) (wall : Z)
    (token : string) (key : Z) : DecodeResult :=
  match tbl !! token with
  | None => JWTError
  | Some t =>
      if signed_rs256_by t key then
        if well_typed_times (Fabricated.claims t)
        then validate_registered wall (Fabricated.claims t)
        else JWTError
      else JWTError
  end.

Definition lib (tbl : gmap string Fabricated.Token) : JoseLib := {|
  SigKey := Z;
  get_unverified_header := fun token => tbl !! token ≫= Fabricated.header;
  jwk_construct := Fabricated.construct;
  jwt_decode := decode tbl
|}.

Definition verifies (tbl : gmap string Fabricated.Token) (token : string)
    (entry : Jwk) : bool :=
  match tbl !! token, Fabricated.construct entry with
  | Some t, Some key => signed_rs256_by t key
  | _, _ => false
  end.

Definition payload_of (tbl : gmap string Fabricated.Token) (token : string)
  : option (gmap string json) :=
  Fabricated.claims <$> tbl !! token.

(** Settings of another deployment, to tell its issuer from the test
    one. *)
Definition eu_settings : Settings := {|
  environment := "production";
  aws_region := "eu-west-1";
  cognito_user_pool_id := "eu-west-1_Pool9";
  cognito_app_client_id := "client9";
  dev_skip_auth := false;
  jwks_cache_ttl := 86400
|}.

Definition access_token (iss : string) (nbf exp : Z) : Fabricated.Token := {|
  Fabricated.header :=
    Some {[ "alg" := JStr "RS256"; "kid" := JStr Fabricated.TEST_KID ]};
  Fabricated.claims :=
    {[ "sub" := JStr "sub-officer"; "iss" := JStr iss;
       "token_use" := JStr "access"; "iat" := JNum 900; "nbf" := JNum nbf;
       "exp" := JNum exp ]};
  Fabricated.signer := 65537
|}.

(** Two tokens signed by the test key, unexpired at time 1000, for the
    issuer of [eu_settings]: one valid from 900, one only from 2000. *)
Definition tokens : gmap string Fabricated.Token :=
  {[ "current" := access_token
       "https://cognito-idp.eu-west-1.amazonaws.com/eu-west-1_Pool9"
       900 5000;
     "early" := access_token
       "https://cognito-idp.eu-west-1.amazonaws.com/eu-west-1_Pool9"
       2000 5000 ]}.

End Strict.

(** The scans two page requests may see of a table of two rows when the
    store changes its order between them. *)
Definition scan_forward : Backend :=
  {| users_table := [as_row Fabricated.admin_old; as_row Fabricated.admin_new];
     cognito_calls := [] |}.
Definition scan_backward : Backend :=
  {| users_table := [as_row Fabricated.admin_new; as_row Fabricated.admin_old];
     cognito_calls := [] |}.

(* ===================================================================== *)
(** * Properties *)
(* ===================================================================== *)

(** ** Signing-key cache *)

Lemma fold_insert_non_empty (keys : list Jwk) (m : gmap string Jwk) :
  m ≠ ∅ -> fold_left (fun m k => <[kid k := k]> m) keys m ≠ ∅.
Proof.
  revert m. induction keys as [|k keys IH]; intros m Hm; simpl.
  - exact Hm.
  - apply IH. apply insert_non_empty.
Qed.

Lemma index_by_kid_non_empty (keys : list Jwk) :
  keys ≠ [] -> index_by_kid keys ≠ ∅.
Proof.
  destruct keys as [|k keys]; [congruence|]. intros _.
  unfold index_by_kid. simpl. apply fold_insert_non_empty, insert_non_empty.
Qed.

Lemma index_by_kid_nil : index_by_kid [] = ∅.
Proof. reflexivity. Qed.

Lemma cache_is_fresh_spec (s : Settings) (now : Z) (w : World) :
  cache_is_fresh s now w = true <->
  jwks_cache w ≠ ∅ /\ now - jwks_fetched_at w < jwks_cache_ttl s.
Proof.
  unfold cache_is_fresh.
  rewrite andb_true_iff, !bool_decide_eq_true. reflexivity.
Qed.

(** The hot path: a fresh cache is returned as it is, and nothing changes,
    the GET counter included. *)
Lemma get_jwks_fresh (s : Settings) (now : Z) net (w : World) :
  cache_is_fresh s now w = true ->
  _get_jwks s now net w = (Ok (jwks_cache w), w).
Proof. intros Hf. unfold _get_jwks. rewrite Hf. reflexivity. Qed.

(** Otherwise, with the provider configured, one GET is issued. *)
Lemma get_jwks_refetch (s : Settings) (now : Z) net (w : World) :
  cache_is_fresh s now w = false ->
  cognito_configured s = true ->
  http_gets (_get_jwks s now net w).2 = S (http_gets w).
Proof.
  intros Hf Hc. unfold _get_jwks. rewrite Hf, Hc. simpl.
  destruct (net (jwks_url s)); [reflexivity|].
  case_bool_decide; reflexivity.
Qed.

(** No call issues more than one GET. *)
Lemma get_jwks_at_most_one_get (s : Settings) (now : Z) net (w : World) :
  (http_gets (_get_jwks s now net w).2 <= S (http_gets w))%nat.
Proof.
  unfold _get_jwks.
  destruct (cache_is_fresh s now w); [simpl; lia|].
  destruct (cognito_configured s); simpl; [|lia].
  destruct (net (jwks_url s)); [simpl; lia|].
  case_bool_decide; simpl; lia.
Qed.

(** A successful fetch installs the fetched set and its time stamp. *)
Lemma get_jwks_fetch_ok (s : Settings) (now : Z) net (w : World) keys :
  cache_is_fresh s now w = false ->
  cognito_configured s = true ->
  net (jwks_url s) = FetchOk keys ->
  _get_jwks s now net w
  = (Ok (index_by_kid keys),
     {| jwks_cache := index_by_kid keys; jwks_fetched_at := now;
        http_gets := S (http_gets w) |}).
Proof.
  intros Hf Hc Hn. unfold _get_jwks. rewrite Hf, Hc, Hn. reflexivity.
Qed.

(** C6, as stated, fails: after a fetch that succeeded with an empty [keys]
    array (one GET, answer [Ok ∅], time stamp 100), a later failing fetch
    raises 503 instead of returning the key set cached before. *)
Lemma fetch_failure_after_empty_fetch_raises :
  _get_jwks prod_settings 100 (fun _ => FetchOk []) initial_world
  = (Ok ∅, after_empty_fetch)
  /\ http_gets after_empty_fetch = 1%nat
  /\ jwks_fetched_at after_empty_fetch = 100
  /\ (_get_jwks prod_settings 200000 (fun _ => FetchFail) after_empty_fetch).1
     = HTTPError ServiceUnavailable.
Proof. repeat split; reflexivity. Qed.

(** C6 (amended): when the fetch fails, [_get_jwks] returns the cached key
    set, however old, provided it is non-empty; with an empty cache (never
    fetched, or last fetched empty) it raises 503 "Authentication service
    unavailable".  Either way the cache and its time stamp are unchanged. *)
Theorem fetch_failure_keeps_cache (s : Settings) (now : Z)
    (net : string -> FetchOutcome) (w : World) :
  cognito_configured s = true ->
  cache_is_fresh s now w = false ->
  net (jwks_url s) = FetchFail ->
  (jwks_cache w ≠ ∅ -> (_get_jwks s now net w).1 = Ok (jwks_cache w))
  /\ (jwks_cache w = ∅ ->
      (_get_jwks s now net w).1 = HTTPError ServiceUnavailable)
  /\ jwks_cache (_get_jwks s now net w).2 = jwks_cache w
  /\ jwks_fetched_at (_get_jwks s now net w).2 = jwks_fetched_at w
  /\ status_code ServiceUnavailable = 503.
Proof.
  intros Hc Hf Hn. unfold _get_jwks. rewrite Hf, Hc, Hn. simpl.
  case_bool_decide as Hne; simpl; repeat split; try reflexivity;
    intros Hm; congruence.
Qed.

Lemma fetch_failure_keeps_cache_witness :
  (_get_jwks prod_settings 200000 (fun _ => FetchFail) warm_world).1
  = Ok Fabricated.FAKE_JWKS
  /\ jwks_fetched_at
       (_get_jwks prod_settings 200000 (fun _ => FetchFail) warm_world).2
     = 100.
Proof.
  pose proof (fetch_failure_keeps_cache prod_settings 200000
                (fun _ => FetchFail) warm_world
                eq_refl eq_refl eq_refl) as (Hstale & _ & _ & Hat & _).
  split; [apply Hstale; discriminate | exact Hat].
Defined.

(** C7, as stated, fails: a fetch that succeeded with an empty [keys] array
    at time 100 is followed, one second later and so within the TTL of
    86400, by a second GET. *)
Lemma empty_fetch_refetched_within_ttl :
  _get_jwks prod_settings 100 (fun _ => FetchOk []) initial_world
  = (Ok ∅, after_empty_fetch)
  /\ 101 - jwks_fetched_at after_empty_fetch < jwks_cache_ttl prod_settings
  /\ http_gets
       (_get_jwks prod_settings 101 (fun _ => FetchOk []) after_empty_fetch).2
     = S (http_gets after_empty_fetch).
Proof. repeat split; reflexivity. Qed.

(** C7 (amended): after a successful fetch at time [t0] that returned at
    least one key, every later sequence of [_get_jwks] calls made less than
    the TTL after [t0] returns the fetched set each time and leaves the
    state, GET counter included, as it was; a call made once the TTL has
    elapsed issues exactly one GET.  The default TTL is 86400. *)
Theorem cached_keys_served_until_ttl (s : Settings) (t0 : Z)
    (net0 : string -> FetchOutcome) (w0 : World) (keys : list Jwk) :
  cognito_configured s = true ->
  cache_is_fresh s t0 w0 = false ->
  net0 (jwks_url s) = FetchOk keys ->
  keys ≠ [] ->
  (_get_jwks s t0 net0 w0).1 = Ok (index_by_kid keys)
  /\ http_gets (_get_jwks s t0 net0 w0).2 = S (http_gets w0)
  /\ (forall calls : list (Z * (string -> FetchOutcome)),
        Forall (fun c => c.1 - t0 < jwks_cache_ttl s) calls ->
        get_jwks_calls s calls (_get_jwks s t0 net0 w0).2
        = (replicate (List.length calls) (Ok (index_by_kid keys)),
           (_get_jwks s t0 net0 w0).2))
  /\ (forall t net,
        jwks_cache_ttl s <= t - t0 ->
        http_gets (_get_jwks s t net (_get_jwks s t0 net0 w0).2).2
        = S (http_gets (_get_jwks s t0 net0 w0).2))
  /\ jwks_cache_ttl default_settings = 86400.
Proof.
  intros Hc Hf Hn Hk.
  rewrite (get_jwks_fetch_ok s t0 net0 w0 keys Hf Hc Hn). simpl.
  set (w1 := {| jwks_cache := index_by_kid keys; jwks_fetched_at := t0;
                http_gets := S (http_gets w0) |}).
  repeat split.
  - intros calls. induction calls as [|[t net] calls IH]; intros Hall.
    + reflexivity.
    + apply Forall_cons in Hall as [Ht Hall]. simpl in Ht. simpl.
      rewrite get_jwks_fresh.
      * rewrite (IH Hall). reflexivity.
      * apply cache_is_fresh_spec. split; [|exact Ht].
        apply index_by_kid_non_empty, Hk.
  - intros t net Ht. apply get_jwks_refetch; [|exact Hc].
    unfold cache_is_fresh. simpl.
    rewrite (bool_decide_eq_false_2 (t - t0 < jwks_cache_ttl s)) by lia.
    apply andb_false_r.
Qed.

Lemma cached_keys_served_until_ttl_witness :
  get_jwks_calls prod_settings
    [(101, fun _ => FetchFail); (86499, fun _ => FetchOk [])]
    (_get_jwks prod_settings 100
       (fun _ => FetchOk [Fabricated.test_key]) initial_world).2
  = ([Ok (index_by_kid [Fabricated.test_key]);
      Ok (index_by_kid [Fabricated.test_key])],
     (_get_jwks prod_settings 100
        (fun _ => FetchOk [Fabricated.test_key]) initial_world).2).
Proof.
  pose proof (cached_keys_served_until_ttl prod_settings 100
                (fun _ => FetchOk [Fabricated.test_key]) initial_world
                [Fabricated.test_key] eq_refl eq_refl eq_refl)
    as Hthm.
  destruct Hthm as (_ & _ & Hcalls & _); [discriminate|].
  apply (Hcalls [(101, fun _ => FetchFail); (86499, fun _ => FetchOk [])]).
  repeat constructor.
Defined.

(** ** Token verifier *)

Section VerifierProps.
Context `{JoseLib}.

(** The six failure values are pairwise different. *)
Lemma verifier_errors_distinct :
  NoDup [MalformedToken; UnknownKey; VerificationFailed; Expired;
         WrongIssuer; WrongTokenUse].
Proof.
  repeat (apply NoDup_cons; split;
          [rewrite ?elem_of_cons, elem_of_nil; intros Hin;
           repeat destruct Hin as [Hin|Hin]; discriminate || exact Hin|]).
  apply NoDup_nil. exact I.
Qed.

(** Step 1: a header that does not parse. *)
Lemma verify_malformed (s : Settings) wall token jwks :
  get_unverified_header token = None ->
  _verify_cognito_jwt s wall token jwks = HTTPError MalformedToken.
Proof. intros Hh. unfold _verify_cognito_jwt. rewrite Hh. reflexivity. Qed.

(** Step 2: a key id that is absent, a string not in the set or any other
    hashable value.  Neither the key material nor the claims are read. *)
Lemma verify_unknown_key (s : Settings) wall token jwks hdr :
  get_unverified_header token = Some hdr ->
  lookup_kid hdr jwks = Ok None ->
  _verify_cognito_jwt s wall token jwks = HTTPError UnknownKey.
Proof.
  intros Hh Hk. unfold _verify_cognito_jwt. rewrite Hh, Hk. reflexivity.
Qed.

(** Steps 3 to 6, once the key has been found and built. *)
Lemma verify_with_key (s : Settings) wall token jwks hdr entry key :
  get_unverified_header token = Some hdr ->
  lookup_kid hdr jwks = Ok (Some entry) ->
  jwk_construct entry = Some key ->
  _verify_cognito_jwt s wall token jwks
  = match jwt_decode wall token key with
    | JWTError => HTTPError VerificationFailed
    | ExpiredSignatureError => HTTPError Expired
    | Decoded payload =>
        if negb (json_eq_str (payload !! "iss") (expected_issuer s))
        then HTTPError WrongIssuer
        else if negb (json_eq_str (payload !! "token_use") "access")
        then HTTPError WrongTokenUse
        else Ok payload
    end.
Proof.
  intros Hh Hk Hc. unfold _verify_cognito_jwt. rewrite Hh, Hk, Hc.
  reflexivity.
Qed.

(** The two ways out of the verifier that are no [HTTPException]: a key id
    that cannot be hashed, and a published key the library cannot build. *)
Lemma verify_unhashable_kid (s : Settings) wall token jwks hdr v :
  get_unverified_header token = Some hdr ->
  hdr !! "kid" = Some v ->
  hashable v = false ->
  _verify_cognito_jwt s wall token jwks = Unhandled TypeError.
Proof.
  intros Hh Hv Hu. unfold _verify_cognito_jwt, lookup_kid.
  rewrite Hh, Hv, Hu. reflexivity.
Qed.

Lemma verify_unbuildable_key (s : Settings) wall token jwks hdr entry :
  get_unverified_header token = Some hdr ->
  lookup_kid hdr jwks = Ok (Some entry) ->
  jwk_construct entry = None ->
  _verify_cognito_jwt s wall token jwks = Unhandled JWKError.
Proof.
  intros Hh Hk Hc. unfold _verify_cognito_jwt. rewrite Hh, Hk, Hc.
  reflexivity.
Qed.

Lemma json_eq_str_true (v : option json) (t : string) :
  json_eq_str v t = true <-> v = Some (JStr t).
Proof.
  unfold json_eq_str. destruct v as [[| | |u| |]|]; try (split; discriminate).
  rewrite bool_decide_eq_true. split; [intros ->; reflexivity|].
  intros [= ->]. reflexivity.
Qed.

(** A successful verification went through every step. *)
Lemma verify_ok_inv (s : Settings) wall token jwks payload :
  _verify_cognito_jwt s wall token jwks = Ok payload ->
  exists hdr entry key,
    get_unverified_header token = Some hdr
    /\ lookup_kid hdr jwks = Ok (Some entry)
    /\ jwk_construct entry = Some key
    /\ jwt_decode wall token key = Decoded payload
    /\ payload !! "iss" = Some (JStr (expected_issuer s))
    /\ payload !! "token_use" = Some (JStr "access").
Proof.
  unfold _verify_cognito_jwt.
  destruct (get_unverified_header token) as [hdr|] eqn:Hh; [|discriminate].
  destruct (lookup_kid hdr jwks) as [[entry|]| |] eqn:Hk; try discriminate.
  destruct (jwk_construct entry) as [key|] eqn:Hc; [|discriminate].
  destruct (jwt_decode wall token key) as [p| |] eqn:Hd; try discriminate.
  destruct (json_eq_str (p !! "iss") _) eqn:Hi; [|discriminate].
  destruct (json_eq_str (p !! "token_use") _) eqn:Hu; [|discriminate].
  simpl. intros [= <-]. exists hdr, entry, key.
  apply json_eq_str_true in Hi, Hu. auto 10.
Qed.

(** Claims that [jwt.decode] returned under the key named by the header,
    with the configured issuer and the token use "access", are handed back
    as they are. *)
Lemma verify_returns_decoded_claims (s : Settings) (wall : Z)
    (token : string) (jwks : gmap string Jwk) (hdr : gmap string json)
    (k : string) (entry : Jwk) (key : SigKey)
    (payload : gmap string json) :
  get_unverified_header token = Some hdr ->
  hdr !! "kid" = Some (JStr k) ->
  jwks !! k = Some entry ->
  jwk_construct entry = Some key ->
  jwt_decode wall token key = Decoded payload ->
  payload !! "iss" = Some (JStr (expected_issuer s)) ->
  payload !! "token_use" = Some (JStr "access") ->
  exists returned,
    _verify_cognito_jwt s wall token jwks = Ok returned
    /\ returned = payload
    /\ returned !! "sub" = payload !! "sub".
Proof.
  intros Hh Hkid Hk Hc Hd Hi Hu. exists payload.
  split; [|split; reflexivity].
  rewrite (verify_with_key s wall token jwks hdr entry key Hh); [|auto|auto].
  - rewrite Hd.
    apply json_eq_str_true in Hi, Hu. rewrite Hi, Hu. reflexivity.
  - unfold lookup_kid. rewrite Hkid. simpl. rewrite Hk. reflexivity.
Qed.

End VerifierProps.

Lemma verify_returns_decoded_claims_example :
  exists returned,
    @_verify_cognito_jwt (Fabricated.jose Fabricated.tokens) prod_settings
      1000 "good" Fabricated.FAKE_JWKS = Ok returned
    /\ returned !! "sub" = Some (JStr "sub-officer").
Proof.
  destruct (@verify_returns_decoded_claims
              (Fabricated.jose Fabricated.tokens) prod_settings 1000 "good"
              Fabricated.FAKE_JWKS
              {[ "alg" := JStr "RS256"; "kid" := JStr Fabricated.TEST_KID ]}
              Fabricated.TEST_KID Fabricated.test_key 65537
              (Fabricated.claims
                 (Fabricated._make_token (JStr Fabricated.TEST_KID)
                    "sub-officer" Fabricated.TEST_ISS "access" 5000 65537))
              eq_refl eq_refl eq_refl eq_refl eq_refl eq_refl eq_refl)
    as (returned & Hok & _ & Hsub).
  exists returned. split; [exact Hok|]. rewrite Hsub. reflexivity.
Defined.

(** C4 fails on the code at a token the verifier can be handed: a header
    whose ["kid"] is a JSON array parses, and the membership test
    [kid not in jwks] then raises [TypeError] (unhashable type), which is
    none of the six 401 failures; the docstring of the function promises
    [HTTPException(401)] on any failure. *)
Theorem verify_list_kid_raises_type_error :
  Fabricated.tokens !! "listkid" ≫= Fabricated.header
  = Some {[ "alg" := JStr "RS256"; "kid" := JArr [JStr "test-key-1"] ]}
  /\ @_verify_cognito_jwt (Fabricated.jose Fabricated.tokens) prod_settings
       1000 "listkid" Fabricated.FAKE_JWKS = Unhandled TypeError.
Proof. split; reflexivity. Qed.

(** The same for a published key without ["alg"]: [jwk.construct] is called
    outside the [try] and its [JWKError] is not a [JWTError]. *)
Lemma verify_key_without_alg_raises_jwk_error :
  @_verify_cognito_jwt (Fabricated.jose Fabricated.tokens) prod_settings
    1000 "good"
    {[ Fabricated.TEST_KID :=
         {| kid := Fabricated.TEST_KID; alg := None; material := 65537 |} ]}
  = Unhandled JWKError.
Proof. reflexivity. Qed.

(** The order of the checks on the fabricated tokens: malformed header,
    unknown key, expiry, then success. *)
Example verify_order_examples :
  let J := Fabricated.jose Fabricated.tokens in
  @_verify_cognito_jwt J prod_settings 1000 "not.a.jwt" Fabricated.FAKE_JWKS
  = HTTPError MalformedToken
  /\ @_verify_cognito_jwt J prod_settings 1000 "good" ∅ = HTTPError UnknownKey
  /\ @_verify_cognito_jwt J prod_settings 9000 "good" Fabricated.FAKE_JWKS
     = HTTPError Expired
  /\ @_verify_cognito_jwt J prod_settings 1000 "rotated" Fabricated.FAKE_JWKS
     = HTTPError UnknownKey.
Proof. repeat split; reflexivity. Qed.

(** ** Identity resolver *)

Lemma find_first_split {A} (p : A -> bool) (l : list A) (x : A) :
  find p l = Some x ->
  p x = true
  /\ exists before after,
       l = (before ++ x :: after)%list
       /\ Forall (fun y => p y = false) before.
Proof.
  induction l as [|a l IH]; simpl; [discriminate|].
  destruct (p a) eqn:Hpa.
  - intros [= ->]. split; [exact Hpa|]. exists [], l. split; [reflexivity|].
    constructor.
  - intros Hf. destruct (IH Hf) as (Hpx & before & after & -> & Hall).
    split; [exact Hpx|]. exists (a :: before), after.
    split; [reflexivity|]. constructor; assumption.
Qed.

Lemma truthy_false (o : option string) :
  truthy o = false <-> o = None \/ o = Some "".
Proof.
  unfold truthy. destruct o as [t|].
  - rewrite negb_false_iff, bool_decide_eq_true. split.
    + intros ->. right. reflexivity.
    + intros [Hn|[= ->]]; [discriminate|reflexivity].
  - split; auto.
Qed.

Section ResolverProps.
Context `{JoseLib}.

Lemma production_is_not_development (s : Settings) :
  py_lower (environment s) = "production" -> is_development s = false.
Proof.
  intros He. unfold is_development. rewrite He. reflexivity.
Qed.

Lemma production_path_no_token (s : Settings) (env : Env) token (w : World) :
  truthy token = false ->
  production_path s env token w = (HTTPError NotAuthenticated, w).
Proof.
  intros Ht. apply truthy_false in Ht as [->| ->]; reflexivity.
Qed.

(** Past its two guards the production path is: keys, verification, one
    lookup. *)
Lemma production_path_unfold (s : Settings) (env : Env) tok (w : World) :
  tok ≠ "" ->
  cognito_configured s = true ->
  production_path s env (Some tok) w
  = match _get_jwks s (monotonic env) (net env) w with
    | (Ok jwks, w1) =>
        match _verify_cognito_jwt s (wall_clock env) tok jwks with
        | Ok payload =>
            match find_user_by_sub (db env) (payload !! "sub") with
            | Some u =>
                if is_active u then (Ok u, w1)
                else (HTTPError UserNotFoundOrInactive, w1)
            | None => (HTTPError UserNotFoundOrInactive, w1)
            end
        | HTTPError e => (HTTPError e, w1)
        | Unhandled x => (Unhandled x, w1)
        end
    | (HTTPError e, w1) => (HTTPError e, w1)
    | (Unhandled x, w1) => (Unhandled x, w1)
    end.
Proof.
  intros Ht Hc. unfold production_path, bind, lift.
  rewrite bool_decide_eq_false_2 by exact Ht. rewrite Hc. simpl.
  destruct (_get_jwks s (monotonic env) (net env) w) as [[jwks|e|x] w1];
    try reflexivity.
  destruct (_verify_cognito_jwt s (wall_clock env) tok jwks) as [p|e|x];
    try reflexivity.
  destruct (find_user_by_sub (db env) (p !! "sub")) as [u|]; [|reflexivity].
  destruct (is_active u); reflexivity.
Qed.

(** The world a production request leaves is the one [_get_jwks] left. *)
Lemma production_path_world (s : Settings) (env : Env) tok (w : World) :
  tok ≠ "" ->
  cognito_configured s = true ->
  (production_path s env (Some tok) w).2
  = (_get_jwks s (monotonic env) (net env) w).2.
Proof.
  intros Ht Hc. rewrite production_path_unfold by assumption.
  destruct (_get_jwks s (monotonic env) (net env) w) as [[jwks|e|x] w1];
    try reflexivity.
  destruct (_verify_cognito_jwt s (wall_clock env) tok jwks) as [p|e|x];
    try reflexivity.
  destruct (find_user_by_sub (db env) (p !! "sub")) as [u|]; [|reflexivity].
  destruct (is_active u); reflexivity.
Qed.

(** Success on the production path: a non-empty token, verified against
    the key set [_get_jwks] returned, and an active user under its
    subject. *)
Lemma production_path_ok_inv (s : Settings) (env : Env) token
    (w w' : World) (u : User) :
  production_path s env token w = (Ok u, w') ->
  exists tok jwks payload,
    token = Some tok /\ tok ≠ ""
    /\ _get_jwks s (monotonic env) (net env) w = (Ok jwks, w')
    /\ _verify_cognito_jwt s (wall_clock env) tok jwks = Ok payload
    /\ find_user_by_sub (db env) (payload !! "sub") = Some u
    /\ is_active u = true.
Proof.
  destruct token as [tok|]; [|discriminate].
  destruct (decide (tok = "")) as [->|Ht]; [discriminate|].
  destruct (cognito_configured s) eqn:Hc.
  2:{ unfold production_path. rewrite bool_decide_eq_false_2 by exact Ht.
      rewrite Hc. discriminate. }
  rewrite production_path_unfold by assumption.
  destruct (_get_jwks s (monotonic env) (net env) w) as [[jwks|e|x] w1];
    try discriminate.
  destruct (_verify_cognito_jwt s (wall_clock env) tok jwks) as [p|e|x] eqn:Hv;
    try discriminate.
  destruct (find_user_by_sub (db env) (p !! "sub")) as [v|] eqn:Hu;
    [|discriminate].
  destruct (is_active v) eqn:Ha; [|discriminate].
  intros [= -> ->]. exists tok, jwks, p. auto 10.
Qed.

(** The admin fallback yields only active ADMIN users. *)
Lemma find_first_admin_active (rows : list User) (u : User) :
  find_first_admin rows = Some u -> role u = "ADMIN" /\ is_active u = true.
Proof.
  intros Hf. apply find_first_split in Hf as [Hp _].
  apply andb_true_iff in Hp as [Hr Ha].
  apply bool_decide_eq_true in Hr. auto.
Qed.

(** C1: with the environment set to production, [auth_disabled] is false
    and a request is resolved by the production path, whatever the
    [dev_skip_auth] flag and the [X-Dev-User-ID] header: flipping the flag
    and replacing the header leave the outcome unchanged; a request
    without a (non-empty) bearer token fails with 401 "Not authenticated";
    a success comes with a token the verifier accepted under the key set
    [_get_jwks] returned for this request; and a token the verifier refuses
    under that key set fails the request with the verifier's error. *)
Theorem production_ignores_dev_bypass (s : Settings) (env : Env)
    (req : Request) (w : World) :
  py_lower (environment s) = "production" ->
  auth_disabled s = false
  /\ resolve s env req w = production_path s env (bearer req) w
  /\ (forall flag hdr,
        resolve (with_dev_skip_auth flag s) env
          {| bearer := bearer req; x_dev_user_id := hdr |} w
        = resolve s env req w)
  /\ (truthy (bearer req) = false ->
      resolve s env req w = (HTTPError NotAuthenticated, w))
  /\ (forall u w',
        resolve s env req w = (Ok u, w') ->
        exists tok jwks payload,
          bearer req = Some tok /\ tok ≠ ""
          /\ _get_jwks s (monotonic env) (net env) w = (Ok jwks, w')
          /\ _verify_cognito_jwt s (wall_clock env) tok jwks = Ok payload
          /\ find_user_by_sub (db env) (payload !! "sub") = Some u
          /\ is_active u = true)
  /\ (forall tok jwks w1 e,
        bearer req = Some tok -> tok ≠ "" ->
        cognito_configured s = true ->
        _get_jwks s (monotonic env) (net env) w = (Ok jwks, w1) ->
        _verify_cognito_jwt s (wall_clock env) tok jwks = HTTPError e ->
        resolve s env req w = (HTTPError e, w1)).
Proof.
  intros He.
  assert (Hoff : forall flag,
             auth_disabled (with_dev_skip_auth flag s) = false).
  { intros flag. unfold auth_disabled, is_development. simpl. rewrite He.
    reflexivity. }
  assert (Hs : auth_disabled s = false).
  { unfold auth_disabled. rewrite production_is_not_development by exact He.
    reflexivity. }
  assert (Hres : resolve s env req w = production_path s env (bearer req) w).
  { unfold resolve, get_current_user. rewrite Hs. reflexivity. }
  split; [exact Hs|]. split; [exact Hres|]. split; [|split; [|split]].
  - intros flag hdr. rewrite Hres.
    unfold resolve, get_current_user. rewrite Hoff. simpl.
    destruct s; reflexivity.
  - intros Ht. rewrite Hres. apply production_path_no_token, Ht.
  - intros u w' Hok. rewrite Hres in Hok.
    apply production_path_ok_inv in Hok
      as (tok & jwks & p & Hb & Ht & Hj & Hv & Hu & Ha).
    exists tok, jwks, p. auto 10.
  - intros tok jwks w1 e Hb Ht Hc Hj Hv. rewrite Hres, Hb.
    rewrite production_path_unfold by assumption. rewrite Hj, Hv.
    reflexivity.
Qed.

End ResolverProps.

Lemma production_ignores_dev_bypass_witness :
  auth_disabled prod_flagged = false
  /\ @resolve fab prod_flagged quiet_env (with_header (Some "sub-admin-old"))
       warm_world
     = (HTTPError NotAuthenticated, warm_world).
Proof.
  pose proof (@production_ignores_dev_bypass fab prod_flagged quiet_env
                (with_header (Some "sub-admin-old")) warm_world eq_refl)
    as (Hoff & _ & _ & Hnone & _).
  split; [exact Hoff | apply Hnone; reflexivity].
Defined.

(** C2 fails on the code in the override branch of the development bypass:
    the row whose [cognito_user_id] equals the header is returned without a
    look at [is_active], while the admin fallback filters on it and the
    production path tests it. *)
Theorem dev_override_resolves_inactive_user :
  auth_disabled dev_settings = true
  /\ @resolve fab dev_settings quiet_env (with_header (Some "sub-disabled"))
       warm_world
     = (Ok Fabricated.disabled, warm_world)
  /\ is_active Fabricated.disabled = false.
Proof. repeat split; reflexivity. Qed.

Section ResolverClaims.
Context `{JoseLib}.

(** The two other branches do return active users only. *)
Lemma resolve_active_elsewhere (s : Settings) (env : Env) (req : Request)
    (w w' : World) (u : User) :
  auth_disabled s = false
  \/ (auth_disabled s = true /\ truthy (x_dev_user_id req) = false) ->
  resolve s env req w = (Ok u, w') ->
  is_active u = true.
Proof.
  unfold resolve, get_current_user, context_var, dev_auth_middleware.
  intros [Hoff|[Hon Hh]].
  - rewrite Hoff. intros Hok.
    apply production_path_ok_inv in Hok as (? & ? & ? & ? & ? & ? & ? & ? & Ha).
    exact Ha.
  - rewrite Hon. unfold dev_bypass_path. rewrite Hh.
    destruct (find_first_admin (db env)) as [v|] eqn:Hf; [|discriminate].
    intros [= -> _]. apply find_first_admin_active in Hf as [_ Ha].
    exact Ha.
Qed.

(** C5 (amended): on the production path the key cache is refreshed by
    age alone.  With a non-empty cache younger than the TTL, a token whose
    key id is not in the cache fails with 401 "Token key not found" and the
    world, GET counter included, is untouched: no refresh is attempted.
    With an empty or expired cache exactly one GET is issued during the
    request, before verification. *)
Theorem unknown_key_refresh_by_age_only (s : Settings) (env : Env)
    (req : Request) (tok : string) (hdr : gmap string json) (w : World) :
  auth_disabled s = false ->
  cognito_configured s = true ->
  bearer req = Some tok ->
  tok ≠ "" ->
  get_unverified_header tok = Some hdr ->
  (cache_is_fresh s (monotonic env) w = true ->
   lookup_kid hdr (jwks_cache w) = Ok None ->
   resolve s env req w = (HTTPError UnknownKey, w))
  /\ (cache_is_fresh s (monotonic env) w = false ->
      http_gets (resolve s env req w).2 = S (http_gets w)).
Proof.
  intros Hoff Hc Hb Ht Hh.
  unfold resolve, get_current_user. rewrite Hoff, Hb. split.
  - intros Hf Hk. rewrite production_path_unfold by assumption.
    rewrite get_jwks_fresh by exact Hf.
    rewrite (verify_unknown_key s _ tok _ hdr Hh Hk). reflexivity.
  - intros Hf. rewrite production_path_world by assumption.
    apply get_jwks_refetch; assumption.
Qed.

(** C8 (amended): in development-bypass mode without an override subject
    (header absent or empty), the resolver returns the first row, in the
    order the store yields them, that is an active ADMIN; creation time
    plays no part.  Without such a row it fails with the "Dev auth"
    401; and so it does for any header when neither the override lookup
    nor the fallback lookup finds a row. *)
Theorem dev_fallback_first_active_admin (s : Settings) (env : Env)
    (req : Request) (w : World) :
  auth_disabled s = true ->
  truthy (x_dev_user_id req) = false ->
  (forall u,
     find_first_admin (db env) = Some u ->
     resolve s env req w = (Ok u, w)
     /\ role u = "ADMIN" /\ is_active u = true
     /\ exists before after,
          db env = (before ++ u :: after)%list
          /\ Forall (fun v => ~ (role v = "ADMIN" /\ is_active v = true))
               before)
  /\ (find_first_admin (db env) = None ->
      resolve s env req w = (HTTPError NoDevUser, w))
  /\ (forall req',
        find_user_by_sub (db env) (JStr <$> x_dev_user_id req') = None ->
        find_first_admin (db env) = None ->
        resolve s env req' w = (HTTPError NoDevUser, w)).
Proof.
  intros Hon Hh.
  unfold resolve, get_current_user, context_var, dev_auth_middleware.
  rewrite Hon. unfold dev_bypass_path. split; [|split].
  - intros u Hf. rewrite Hh, Hf. split; [reflexivity|].
    pose proof (find_first_admin_active _ _ Hf) as [Hr Ha].
    split; [exact Hr|]. split; [exact Ha|].
    apply find_first_split in Hf as (_ & before & after & Hdb & Hall).
    exists before, after. split; [exact Hdb|].
    eapply Forall_impl; [exact Hall|]. simpl. intros v Hv [Hrv Hav].
    rewrite Hav, andb_true_r in Hv. apply bool_decide_eq_false in Hv.
    contradiction.
  - intros Hf. rewrite Hh, Hf. reflexivity.
  - intros req' Hsub Hf.
    destruct (truthy (x_dev_user_id req')); [rewrite Hsub|rewrite Hf];
      reflexivity.
Qed.

(** C10: in development-bypass mode a request whose [X-Dev-User-ID] header
    is the empty string is resolved exactly as one without the header, by
    the admin fallback; no user is looked up under the empty subject. *)
Theorem empty_override_header_is_absent (s : Settings) (env : Env)
    (token : option string) (w : World) :
  auth_disabled s = true ->
  resolve s env {| bearer := token; x_dev_user_id := Some "" |} w
  = resolve s env {| bearer := token; x_dev_user_id := None |} w
  /\ resolve s env {| bearer := token; x_dev_user_id := Some "" |} w
     = match find_first_admin (db env) with
       | Some u => (Ok u, w)
       | None => (HTTPError NoDevUser, w)
       end.
Proof.
  intros Hon.
  unfold resolve, get_current_user, context_var, dev_auth_middleware.
  rewrite Hon. unfold dev_bypass_path. simpl.
  destruct (find_first_admin (db env)); split; reflexivity.
Qed.

End ResolverClaims.

(** C5, as stated, fails: the cache holds [test-key-1] and is 100 seconds
    old; the token names [test-key-2], which the provider now publishes.
    The request fails with "Token key not found" and the GET counter has not
    moved: no refresh was attempted. *)
Lemma fresh_cache_miss_fails_without_refresh :
  cache_is_fresh prod_settings (monotonic rotating_env) warm_world = true
  /\ jwks_cache warm_world !! "test-key-2" = None
  /\ (match net rotating_env (jwks_url prod_settings) with
      | FetchOk keys => index_by_kid keys !! "test-key-2"
      | FetchFail => None
      end) = Some Fabricated.rotated_key
  /\ @resolve fab prod_settings rotating_env (with_token "rotated") warm_world
     = (HTTPError UnknownKey, warm_world)
  /\ http_gets
       (@resolve fab prod_settings rotating_env (with_token "rotated")
          warm_world).2
     = http_gets warm_world.
Proof. repeat split; reflexivity. Qed.

Lemma unknown_key_refresh_by_age_only_witness :
  @resolve fab prod_settings rotating_env (with_token "rotated") warm_world
  = (HTTPError UnknownKey, warm_world)
  /\ http_gets
       (@resolve fab prod_settings rotating_env (with_token "rotated")
          initial_world).2
     = 1%nat.
Proof.
  split.
  - refine (proj1 (@unknown_key_refresh_by_age_only fab prod_settings
                     rotating_env (with_token "rotated") "rotated"
                     {[ "alg" := JStr "RS256"; "kid" := JStr "test-key-2" ]}
                     warm_world eq_refl eq_refl eq_refl _ eq_refl)
                  eq_refl eq_refl).
    discriminate.
  - refine (proj2 (@unknown_key_refresh_by_age_only fab prod_settings
                     rotating_env (with_token "rotated") "rotated"
                     {[ "alg" := JStr "RS256"; "kid" := JStr "test-key-2" ]}
                     initial_world eq_refl eq_refl eq_refl _ eq_refl)
                  eq_refl).
    discriminate.
Defined.

(** C8, as stated, fails: with two active ADMIN rows the fallback returns
    the one the store yields first, here the older, not the most recently
    created. *)
Lemma dev_fallback_not_most_recent :
  auth_disabled dev_settings = true
  /\ @resolve fab dev_settings quiet_env (with_header None) warm_world
     = (Ok Fabricated.admin_old, warm_world)
  /\ most_recent_active_admin (db quiet_env) = Some Fabricated.admin_new
  /\ created_at Fabricated.admin_old < created_at Fabricated.admin_new.
Proof. repeat split; reflexivity. Qed.

Lemma dev_fallback_first_active_admin_witness :
  @resolve fab dev_settings quiet_env (with_header None) warm_world
  = (Ok Fabricated.admin_old, warm_world).
Proof.
  pose proof (@dev_fallback_first_active_admin fab dev_settings quiet_env
                (with_header None) warm_world eq_refl eq_refl)
    as (Hsome & _ & _).
  exact (proj1 (Hsome Fabricated.admin_old eq_refl)).
Defined.

Lemma empty_override_header_is_absent_witness :
  @resolve fab dev_settings blank_env (with_header (Some "")) warm_world
  = @resolve fab dev_settings blank_env (with_header None) warm_world
  /\ @resolve fab dev_settings blank_env (with_header (Some "")) warm_world
     = (Ok Fabricated.admin_old, warm_world).
Proof.
  exact (@empty_override_header_is_absent fab dev_settings blank_env None
           warm_world eq_refl).
Defined.

(** ** Role guard *)

Section GuardProps.
Context `{JoseLib}.


End GuardProps.


(* ===================================================================== *)
(** * Further properties of the authentication core *)
(* ===================================================================== *)

(** ** Signing-key cache *)

Lemma index_by_kid_snoc (keys : list Jwk) (k : Jwk) :
  index_by_kid (keys ++ [k])%list = <[kid k := k]> (index_by_kid keys).
Proof. unfold index_by_kid. rewrite fold_left_app. reflexivity. Qed.

Lemma index_by_kid_lookup_aux (keys : list Jwk) (k : string) :
  index_by_kid keys !! k
  = find (fun j => bool_decide (kid j = k)) (reverse keys).
Proof.
  induction keys as [|j keys IH] using rev_ind.
  - reflexivity.
  - rewrite index_by_kid_snoc, reverse_app. simpl.
    case_bool_decide as Hk.
    + rewrite Hk. apply lookup_insert_eq.
    + rewrite lookup_insert_ne by exact Hk. exact IH.
Qed.

(** The index built from a fetched [keys] array answers a key id with the
    last entry published under it, and with nothing for an id that no entry
    carries. *)
Theorem index_by_kid_lookup (keys : list Jwk) (k : string) :
  index_by_kid keys !! k
  = find (fun j => bool_decide (kid j = k)) (reverse keys).
Proof.
  induction keys as [|j keys IH] using rev_ind.
  - reflexivity.
  - rewrite index_by_kid_snoc, reverse_app. simpl.
    case_bool_decide as Hk.
    + rewrite Hk. apply lookup_insert_eq.
    + rewrite lookup_insert_ne by exact Hk. exact IH.
Qed.

(** A successful refresh replaces the cache wholesale: what the cache held
    before plays no part in what it holds after, so a key id the provider no
    longer publishes is gone. *)
Theorem refresh_replaces_cache (s : Settings) (now : Z)
    (net : string -> FetchOutcome) (w : World) (keys : list Jwk)
    (k : string) :
  cognito_configured s = true ->
  cache_is_fresh s now w = false ->
  net (jwks_url s) = FetchOk keys ->
  Forall (fun j => kid j ≠ k) keys ->
  jwks_cache (_get_jwks s now net w).2 !! k = None
  /\ (_get_jwks s now net w).1 = Ok (jwks_cache (_get_jwks s now net w).2).
Proof.
  intros Hc Hf Hn Hall.
  rewrite (get_jwks_fetch_ok s now net w keys Hf Hc Hn). simpl.
  split; [|reflexivity].
  rewrite index_by_kid_lookup_aux.
  destruct (find _ (reverse keys)) as [j|] eqn:Hfind; [|reflexivity].
  apply find_some in Hfind as [Hin Hk].
  apply bool_decide_eq_true in Hk.
  rewrite Forall_forall in Hall.
  exfalso. apply (Hall j); [|exact Hk].
  apply list_elem_of_In in Hin. rewrite elem_of_reverse in Hin. exact Hin.
Qed.

Lemma refresh_replaces_cache_witness :
  jwks_cache
    (_get_jwks prod_settings 200000
       (fun _ => FetchOk [Fabricated.rotated_key]) warm_world).2
    !! Fabricated.TEST_KID = None.
Proof.
  refine (proj1 (refresh_replaces_cache prod_settings 200000
                   (fun _ => FetchOk [Fabricated.rotated_key]) warm_world
                   [Fabricated.rotated_key] Fabricated.TEST_KID
                   eq_refl eq_refl eq_refl _)).
  repeat constructor. discriminate.
Defined.

(** With the provider not configured, a call that finds no fresh cache
    returns the empty key set at once: no GET, no change of state, whatever
    the network would answer. *)
Theorem get_jwks_unconfigured (s : Settings) (now : Z)
    (net : string -> FetchOutcome) (w : World) :
  cognito_configured s = false ->
  cache_is_fresh s now w = false ->
  _get_jwks s now net w = (Ok ∅, w).
Proof.
  intros Hc Hf. unfold _get_jwks. rewrite Hf, Hc. reflexivity.
Qed.

Lemma get_jwks_unconfigured_witness :
  _get_jwks default_settings 5 (fun _ => FetchOk [Fabricated.test_key])
    initial_world
  = (Ok ∅, initial_world).
Proof.
  exact (get_jwks_unconfigured default_settings 5
           (fun _ => FetchOk [Fabricated.test_key]) initial_world
           eq_refl eq_refl).
Defined.

Lemma get_jwks_state_change_aux (s : Settings) (now : Z)
    (net : string -> FetchOutcome) (w : World) :
  ((jwks_cache (_get_jwks s now net w).2 = jwks_cache w
    /\ jwks_fetched_at (_get_jwks s now net w).2 = jwks_fetched_at w)
   \/ (exists keys,
         net (jwks_url s) = FetchOk keys
         /\ jwks_cache (_get_jwks s now net w).2 = index_by_kid keys
         /\ jwks_fetched_at (_get_jwks s now net w).2 = now
         /\ http_gets (_get_jwks s now net w).2 = S (http_gets w)))
  /\ (forall m,
        (_get_jwks s now net w).1 = Ok m ->
        m = jwks_cache (_get_jwks s now net w).2
        \/ (cognito_configured s = false /\ m = ∅))
  /\ (forall e,
        (_get_jwks s now net w).1 = HTTPError e -> e = ServiceUnavailable)
  /\ (forall x, (_get_jwks s now net w).1 ≠ Unhandled x).
Proof.
  unfold _get_jwks.
  destruct (cache_is_fresh s now w).
  { simpl. repeat split; try discriminate; auto.
    intros m [= <-]. auto. }
  destruct (cognito_configured s); simpl.
  2:{ repeat split; try discriminate; auto. intros m [= <-]. auto. }
  destruct (net (jwks_url s)) as [keys|]; simpl.
  { repeat split; try discriminate; [right; eauto 6|].
    intros m [= <-]. auto. }
  case_bool_decide; simpl; repeat split; try discriminate; auto.
  - intros m [= <-]. auto.
  - intros e [= <-]. reflexivity.
Qed.

(** What one call can do to the module state: either the cache and its time
    stamp are as before, or the provider answered a GET with a key array,
    the cache is the index of that array and the time stamp is the clock
    reading of the call.  A key set returned is the cache as the call leaves
    it, except for the empty set of the unconfigured case. *)
Theorem get_jwks_state_change (s : Settings) (now : Z)
    (net : string -> FetchOutcome) (w : World) :
  ((jwks_cache (_get_jwks s now net w).2 = jwks_cache w
    /\ jwks_fetched_at (_get_jwks s now net w).2 = jwks_fetched_at w)
   \/ (exists keys,
         net (jwks_url s) = FetchOk keys
         /\ jwks_cache (_get_jwks s now net w).2 = index_by_kid keys
         /\ jwks_fetched_at (_get_jwks s now net w).2 = now
         /\ http_gets (_get_jwks s now net w).2 = S (http_gets w)))
  /\ (forall m,
        (_get_jwks s now net w).1 = Ok m ->
        m = jwks_cache (_get_jwks s now net w).2
        \/ (cognito_configured s = false /\ m = ∅))
  /\ (forall e,
        (_get_jwks s now net w).1 = HTTPError e -> e = ServiceUnavailable)
  /\ (forall x, (_get_jwks s now net w).1 ≠ Unhandled x).
Proof.
  unfold _get_jwks.
  destruct (cache_is_fresh s now w).
  { simpl. repeat split; try discriminate; auto.
    intros m [= <-]. auto. }
  destruct (cognito_configured s); simpl.
  2:{ repeat split; try discriminate; auto. intros m [= <-]. auto. }
  destruct (net (jwks_url s)) as [keys|]; simpl.
  { repeat split; try discriminate; [right; eauto 6|].
    intros m [= <-]. auto. }
  case_bool_decide; simpl; repeat split; try discriminate; auto.
  - intros m [= <-]. auto.
  - intros e [= <-]. reflexivity.
Qed.

(** Over any sequence of calls the number of GETs issued grows by at most
    one per call. *)
Theorem get_jwks_calls_gets_bounded (s : Settings)
    (calls : list (Z * (string -> FetchOutcome))) (w : World) :
  (http_gets w <= http_gets (get_jwks_calls s calls w).2
   <= http_gets w + List.length calls)%nat.
Proof.
  revert w. induction calls as [|[now net] calls IH]; intros w; simpl.
  - lia.
  - pose proof (get_jwks_at_most_one_get s now net w) as Hone.
    assert (Hmono : (http_gets w <= http_gets (_get_jwks s now net w).2)%nat).
    { unfold _get_jwks. destruct (cache_is_fresh s now w); [simpl; lia|].
      destruct (cognito_configured s); simpl; [|lia].
      destruct (net (jwks_url s)); [simpl; lia|].
      case_bool_decide; simpl; lia. }
    destruct (_get_jwks s now net w) as [r w1]. simpl in *.
    specialize (IH w1).
    destruct (get_jwks_calls s calls w1) as [rs w2]. simpl in *. lia.
Qed.

(** ** Token verifier *)

Section VerifierFurther.
Context `{JoseLib}.

Lemma verify_failures_are_401_aux (s : Settings) (wall : Z) (token : string)
    (jwks : gmap string Jwk) (e : HTTPException) :
  _verify_cognito_jwt s wall token jwks = HTTPError e ->
  e ∈ [MalformedToken; UnknownKey; VerificationFailed; Expired;
       WrongIssuer; WrongTokenUse]
  /\ status_code e = 401.
Proof.
  unfold _verify_cognito_jwt, lookup_kid.
  destruct (get_unverified_header token) as [hdr|].
  2:{ intros [= <-]. split; [set_solver|reflexivity]. }
  destruct (hdr !! "kid") as [v|].
  2:{ intros [= <-]. split; [set_solver|reflexivity]. }
  destruct (hashable v); [|discriminate].
  assert (Hentry : forall o : option Jwk,
    match o with
    | Some entry =>
        match jwk_construct entry with
        | Some key =>
            match jwt_decode wall token key with
            | Decoded payload =>
                if negb (json_eq_str (payload !! "iss") (expected_issuer s))
                then HTTPError WrongIssuer
                else if negb (json_eq_str (payload !! "token_use") "access")
                then HTTPError WrongTokenUse else Ok payload
            | ExpiredSignatureError => HTTPError Expired
            | JWTError => HTTPError VerificationFailed
            end
        | None => Unhandled JWKError
        end
    | None => HTTPError UnknownKey
    end = HTTPError e ->
    e ∈ [MalformedToken; UnknownKey; VerificationFailed; Expired;
         WrongIssuer; WrongTokenUse] /\ status_code e = 401).
  { intros [entry|]; [|intros [= <-]; split; [set_solver|reflexivity]].
    destruct (jwk_construct entry) as [key|]; [|discriminate].
    destruct (jwt_decode wall token key) as [p| |];
      try (intros [= <-]; split; [set_solver|reflexivity]).
    destruct (negb (json_eq_str (p !! "iss") _));
      [intros [= <-]; split; [set_solver|reflexivity]|].
    destruct (negb (json_eq_str (p !! "token_use") _));
      [intros [= <-]; split; [set_solver|reflexivity]|discriminate]. }
  destruct v; try (apply (Hentry None)). apply Hentry.
Qed.

(** Every [HTTPException] the verifier raises is one of its six, and each
    carries status 401. *)
Theorem verify_failures_are_401 (s : Settings) (wall : Z) (token : string)
    (jwks : gmap string Jwk) (e : HTTPException) :
  _verify_cognito_jwt s wall token jwks = HTTPError e ->
  e ∈ [MalformedToken; UnknownKey; VerificationFailed; Expired;
       WrongIssuer; WrongTokenUse]
  /\ status_code e = 401.
Proof.
  unfold _verify_cognito_jwt, lookup_kid.
  destruct (get_unverified_header token) as [hdr|].
  2:{ intros [= <-]. split; [set_solver|reflexivity]. }
  destruct (hdr !! "kid") as [v|].
  2:{ intros [= <-]. split; [set_solver|reflexivity]. }
  destruct (hashable v); [|discriminate].
  assert (Hentry : forall o : option Jwk,
    match o with
    | Some entry =>
        match jwk_construct entry with
        | Some key =>
            match jwt_decode wall token key with
            | Decoded payload =>
                if negb (json_eq_str (payload !! "iss") (expected_issuer s))
                then HTTPError WrongIssuer
                else if negb (json_eq_str (payload !! "token_use") "access")
                then HTTPError WrongTokenUse else Ok payload
            | ExpiredSignatureError => HTTPError Expired
            | JWTError => HTTPError VerificationFailed
            end
        | None => Unhandled JWKError
        end
    | None => HTTPError UnknownKey
    end = HTTPError e ->
    e ∈ [MalformedToken; UnknownKey; VerificationFailed; Expired;
         WrongIssuer; WrongTokenUse] /\ status_code e = 401).
  { intros [entry|]; [|intros [= <-]; split; [set_solver|reflexivity]].
    destruct (jwk_construct entry) as [key|]; [|discriminate].
    destruct (jwt_decode wall token key) as [p| |];
      try (intros [= <-]; split; [set_solver|reflexivity]).
    destruct (negb (json_eq_str (p !! "iss") _));
      [intros [= <-]; split; [set_solver|reflexivity]|].
    destruct (negb (json_eq_str (p !! "token_use") _));
      [intros [= <-]; split; [set_solver|reflexivity]|discriminate]. }
  destruct v; try (apply (Hentry None)). apply Hentry.
Qed.

(** What acceptance means: the header parsed and named, by a string, an
    entry of the key set; that entry built a key under which [jwt.decode]
    returned exactly the claims handed back; and those claims carry the
    configured issuer and the token use "access". *)
Theorem verify_accepts_only_checked_tokens (s : Settings) (wall : Z)
    (token : string) (jwks : gmap string Jwk) (payload : gmap string json) :
  _verify_cognito_jwt s wall token jwks = Ok payload ->
  exists hdr k entry key,
    get_unverified_header token = Some hdr
    /\ hdr !! "kid" = Some (JStr k)
    /\ jwks !! k = Some entry
    /\ jwk_construct entry = Some key
    /\ jwt_decode wall token key = Decoded payload
    /\ payload !! "iss" = Some (JStr (expected_issuer s))
    /\ payload !! "token_use" = Some (JStr "access").
Proof.
  intros Hok.
  apply verify_ok_inv in Hok
    as (hdr & entry & key & Hh & Hk & Hc & Hd & Hi & Hu).
  unfold lookup_kid in Hk.
  destruct (hdr !! "kid") as [v|] eqn:Hv; [|discriminate].
  destruct v as [| | |k| |]; simpl in Hk; try discriminate.
  injection Hk as Hk. exists hdr, k, entry, key. auto 10.
Qed.

(** The verdict on a token depends on the key set only through the entry
    under the key id the token declares: key sets that agree there give the
    same verdict, so publishing or retiring other keys changes nothing. *)
Theorem verify_depends_on_declared_key_only (s : Settings) (wall : Z)
    (token : string) (jwks jwks' : gmap string Jwk) :
  (forall hdr k,
     get_unverified_header token = Some hdr ->
     hdr !! "kid" = Some (JStr k) ->
     jwks !! k = jwks' !! k) ->
  _verify_cognito_jwt s wall token jwks
  = _verify_cognito_jwt s wall token jwks'.
Proof.
  intros Hagree. unfold _verify_cognito_jwt, lookup_kid.
  destruct (get_unverified_header token) as [hdr|] eqn:Hh; [|reflexivity].
  destruct (hdr !! "kid") as [v|] eqn:Hv; [|reflexivity].
  destruct v as [| | |k| |]; simpl; try reflexivity.
  rewrite (Hagree hdr k eq_refl Hv). reflexivity.
Qed.

(** A header without ["kid"], or with one that is hashable but no string, is
    answered "Token key not found" against every key set, before the
    signature or the claims are looked at. *)
Theorem verify_without_string_kid (s : Settings) (wall : Z) (token : string)
    (jwks : gmap string Jwk) (hdr : gmap string json) :
  get_unverified_header token = Some hdr ->
  (forall k, hdr !! "kid" ≠ Some (JStr k)) ->
  (forall v, hdr !! "kid" = Some v -> hashable v = true) ->
  _verify_cognito_jwt s wall token jwks = HTTPError UnknownKey.
Proof.
  intros Hh Hnostr Hhash. apply (verify_unknown_key s wall token jwks hdr Hh).
  unfold lookup_kid. destruct (hdr !! "kid") as [v|] eqn:Hv; [|reflexivity].
  rewrite (Hhash v eq_refl).
  destruct v as [| | |k| |]; try reflexivity.
  exfalso. exact (Hnostr k eq_refl).
Qed.

End VerifierFurther.

(** A key set grown by a rotated key gives the old token its old verdict. *)
Lemma verify_depends_on_declared_key_only_witness :
  @_verify_cognito_jwt fab prod_settings 1000 "good" Fabricated.FAKE_JWKS
  = @_verify_cognito_jwt fab prod_settings 1000 "good"
      (<["test-key-2" := Fabricated.rotated_key]> Fabricated.FAKE_JWKS).
Proof.
  apply (@verify_depends_on_declared_key_only fab).
  intros hdr k Hh Hk. injection Hh as <-.
  assert (k = "test-key-1") as -> by (vm_compute in Hk; congruence).
  reflexivity.
Defined.

Lemma verify_failures_are_401_witness :
  status_code Expired = 401.
Proof.
  exact (proj2 (@verify_failures_are_401 fab prod_settings 9000 "good"
                  Fabricated.FAKE_JWKS Expired eq_refl)).
Defined.

Lemma verify_accepts_only_checked_tokens_witness :
  exists hdr k entry,
    @get_unverified_header fab "good" = Some hdr
    /\ hdr !! "kid" = Some (JStr k)
    /\ Fabricated.FAKE_JWKS !! k = Some entry.
Proof.
  destruct (@verify_accepts_only_checked_tokens fab prod_settings 1000 "good"
              Fabricated.FAKE_JWKS _ eq_refl)
    as (hdr & k & entry & key & Hh & Hk & He & _).
  exists hdr, k, entry. auto.
Defined.

Lemma verify_without_string_kid_witness :
  @_verify_cognito_jwt (Fabricated.jose no_kid_tokens) prod_settings 1000
    "nokid" Fabricated.FAKE_JWKS
  = HTTPError UnknownKey.
Proof.
  apply (@verify_without_string_kid (Fabricated.jose no_kid_tokens)
           prod_settings 1000 "nokid" Fabricated.FAKE_JWKS
           {[ "alg" := JStr "RS256" ]} eq_refl).
  - intros k. discriminate.
  - intros v. discriminate.
Defined.

(** ** Identity resolver and role guard *)

Section ResolverFurther.
Context `{JoseLib}.

(** Under the development bypass the resolver reads the table and the
    override header and nothing else: the bearer token, the clocks and the
    provider play no part, and the module state is left as it was. *)
Theorem dev_bypass_reads_only_table_and_header (s : Settings)
    (env env' : Env) (token token' : option string) (hdr : option string)
    (w : World) :
  auth_disabled s = true ->
  db env = db env' ->
  resolve s env {| bearer := token; x_dev_user_id := hdr |} w
  = resolve s env' {| bearer := token'; x_dev_user_id := hdr |} w
  /\ (resolve s env {| bearer := token; x_dev_user_id := hdr |} w).2 = w.
Proof.
  intros Hon Hdb.
  unfold resolve, get_current_user, context_var, dev_auth_middleware.
  rewrite Hon. unfold dev_bypass_path. simpl. rewrite <- Hdb.
  split; [reflexivity|].
  destruct (truthy hdr);
    [destruct (find_user_by_sub _ _)|destruct (find_first_admin _)];
    reflexivity.
Qed.

(** A known override subject resolves to the row carrying it. *)
Theorem dev_override_resolves_named_user (s : Settings) (env : Env)
    (token : option string) (sub : string) (w : World) (u : User) :
  auth_disabled s = true ->
  sub ≠ "" ->
  resolve s env {| bearer := token; x_dev_user_id := Some sub |} w = (Ok u, w)
  <-> find (fun v => bool_decide (cognito_user_id v = sub)) (db env) = Some u.
Proof.
  intros Hon Hsub.
  unfold resolve, get_current_user, context_var, dev_auth_middleware.
  rewrite Hon. unfold dev_bypass_path, truthy. simpl.
  rewrite bool_decide_eq_false_2 by exact Hsub. simpl.
  destruct (find _ (db env)) as [v|]; split; try discriminate.
  - intros [= ->]. reflexivity.
  - intros [= ->]. reflexivity.
Qed.

(** On the production path the user returned is the first row whose
    [cognito_user_id] is the ["sub"] claim of the verified token, and the
    token was verified against the key set [_get_jwks] returned. *)
Theorem production_identity_is_token_subject (s : Settings) (env : Env)
    (req : Request) (w w' : World) (u : User) :
  auth_disabled s = false ->
  resolve s env req w = (Ok u, w') ->
  exists tok jwks payload,
    bearer req = Some tok
    /\ _get_jwks s (monotonic env) (net env) w = (Ok jwks, w')
    /\ _verify_cognito_jwt s (wall_clock env) tok jwks = Ok payload
    /\ payload !! "sub" = Some (JStr (cognito_user_id u))
    /\ find (fun v => bool_decide (cognito_user_id v = cognito_user_id u))
         (db env) = Some u.
Proof.
  intros Hoff. unfold resolve, get_current_user. rewrite Hoff. intros Hok.
  apply production_path_ok_inv in Hok
    as (tok & jwks & p & Hb & _ & Hj & Hv & Hu & _).
  exists tok, jwks, p. repeat split; try assumption.
  - unfold find_user_by_sub in Hu.
    destruct (p !! "sub") as [[| | |t| |]|]; try discriminate.
    pose proof (find_some _ _ Hu) as [_ Ht].
    apply bool_decide_eq_true in Ht. rewrite Ht. reflexivity.
  - unfold find_user_by_sub in Hu.
    destruct (p !! "sub") as [[| | |t| |]|]; try discriminate.
    pose proof (find_some _ _ Hu) as [_ Ht].
    apply bool_decide_eq_true in Ht. rewrite Ht. exact Hu.
Qed.

(** The [HTTPException]s of the resolver: status 401 or 503, never 403; 503
    only outside the development bypass, for a provider that is not
    configured or cannot be reached. *)
Theorem resolve_failure_statuses (s : Settings) (env : Env) (req : Request)
    (w w' : World) (e : HTTPException) :
  resolve s env req w = (HTTPError e, w') ->
  status_code e = 401
  \/ (status_code e = 503 /\ auth_disabled s = false
      /\ (e = AuthNotConfigured \/ e = ServiceUnavailable)).
Proof.
  unfold resolve, get_current_user.
  destruct (auth_disabled s) eqn:Hs.
  - unfold dev_bypass_path.
    destruct (if truthy _ then _ else _); [discriminate|].
    intros [= <- _]. left. reflexivity.
  - destruct (bearer req) as [tok|]; [|intros [= <- _]; left; reflexivity].
    destruct (decide (tok = "")) as [->|Ht];
      [intros [= <- _]; left; reflexivity|].
    destruct (cognito_configured s) eqn:Hc.
    2:{ unfold production_path. rewrite bool_decide_eq_false_2 by exact Ht.
        rewrite Hc. intros [= <- _]. right. auto. }
    rewrite production_path_unfold by assumption.
    pose proof (get_jwks_state_change_aux s (monotonic env) (net env) w)
      as (_ & _ & Herr & _).
    destruct (_get_jwks s (monotonic env) (net env) w) as [[jwks|e1|x] w1];
      try discriminate.
    2:{ intros [= <- _]. rewrite (Herr e1 eq_refl). right. auto. }
    destruct (_verify_cognito_jwt s (wall_clock env) tok jwks) as [p|e1|x] eqn:Hv;
      try discriminate.
    2:{ intros [= <- _]. left.
        exact (proj2 (verify_failures_are_401_aux _ _ _ _ _ Hv)). }
    destruct (find_user_by_sub (db env) (p !! "sub")) as [v|];
      [destruct (is_active v); [discriminate|]|];
      intros [= <- _]; left; reflexivity.
Qed.

(** A request costs the provider at most one GET, and none at all when the
    bypass is on, when no bearer token came with it, or when the provider is
    not configured: in these cases the module state is untouched. *)
Theorem resolve_network_use (s : Settings) (env : Env) (req : Request)
    (w : World) :
  (http_gets (resolve s env req w).2 <= S (http_gets w))%nat
  /\ (auth_disabled s = true \/ truthy (bearer req) = false
      \/ cognito_configured s = false ->
      (resolve s env req w).2 = w).
Proof.
  unfold resolve, get_current_user.
  destruct (auth_disabled s) eqn:Hs.
  { assert (Hw : (dev_bypass_path env (context_var s req) w).2 = w).
    { unfold dev_bypass_path.
      destruct (if truthy _ then _ else _); reflexivity. }
    rewrite Hw. split; [lia|auto]. }
  destruct (bearer req) as [tok|]; [|simpl; split; [lia|auto]].
  destruct (decide (tok = "")) as [->|Ht]; [simpl; split; [lia|auto]|].
  destruct (cognito_configured s) eqn:Hc.
  2:{ unfold production_path. rewrite bool_decide_eq_false_2 by exact Ht.
      rewrite Hc. simpl. split; [lia|auto]. }
  rewrite production_path_world by assumption. split.
  - apply get_jwks_at_most_one_get.
  - intros [Hd|[Hn|Hn]]; try discriminate.
    unfold truthy in Hn. rewrite bool_decide_eq_false_2 in Hn by exact Ht.
    discriminate.
Qed.

Lemma guard_passes_only_listed_roles_aux (roles : list string) (s : Settings)
    (env : Env) (req : Request) (w w' : World) (u : User) :
  guarded roles s env req w = (Ok u, w') ->
  resolve s env req w = (Ok u, w')
  /\ (roles ≠ [] -> role u ∈ roles).
Proof.
  unfold guarded, resolve, require_role, _check_role, bind.
  destruct (get_current_user s env (bearer req) (context_var s req) w)
    as [[v|e|x] w1]; try discriminate.
  destruct (bool_decide (roles = [])) eqn:Hr; simpl.
  - intros [= -> ->]. split; [reflexivity|].
    apply bool_decide_eq_true in Hr. contradiction.
  - destruct (bool_decide (role v ∈ roles)) eqn:Hin; simpl; [|discriminate].
    intros [= -> ->]. split; [reflexivity|]. intros _.
    apply bool_decide_eq_true in Hin. exact Hin.
Qed.

(** A guard that lets a request through returns the user the resolver
    returned, and, built with roles, only a user holding one of them. *)
Theorem guard_passes_only_listed_roles (roles : list string) (s : Settings)
    (env : Env) (req : Request) (w w' : World) (u : User) :
  guarded roles s env req w = (Ok u, w') ->
  resolve s env req w = (Ok u, w')
  /\ (roles ≠ [] -> role u ∈ roles).
Proof.
  unfold guarded, resolve, require_role, _check_role, bind.
  destruct (get_current_user s env (bearer req) (context_var s req) w)
    as [[v|e|x] w1]; try discriminate.
  destruct (bool_decide (roles = [])) eqn:Hr; simpl.
  - intros [= -> ->]. split; [reflexivity|].
    apply bool_decide_eq_true in Hr. contradiction.
  - destruct (bool_decide (role v ∈ roles)) eqn:Hin; simpl; [|discriminate].
    intros [= -> ->]. split; [reflexivity|]. intros _.
    apply bool_decide_eq_true in Hin. exact Hin.
Qed.

(** Widening a non-empty role list never turns an accepted request away,
    and the guard adds no effect of its own on the module state. *)
Theorem guard_monotone_in_roles (roles roles' : list string) (s : Settings)
    (env : Env) (req : Request) (w w' : World) (u : User) :
  roles ≠ [] ->
  roles ⊆ roles' ->
  guarded roles s env req w = (Ok u, w') ->
  guarded roles' s env req w = (Ok u, w')
  /\ (guarded roles' s env req w).2 = (resolve s env req w).2.
Proof.
  intros Hne Hsub Hok.
  apply guard_passes_only_listed_roles_aux in Hok as [Hres Hin].
  specialize (Hin Hne).
  assert (Hg : guarded roles' s env req w = (Ok u, w')).
  { unfold guarded, require_role, _check_role, bind.
    unfold resolve in Hres. rewrite Hres.
    rewrite (bool_decide_eq_true_2 (role u ∈ roles')) by (apply Hsub, Hin).
    rewrite andb_false_r. reflexivity. }
  split; [exact Hg|]. rewrite Hg, Hres. reflexivity.
Qed.

(** The environment names the validator accepts are the three lower-case
    ones, each its own normal form, and only "development" can switch the
    bypass on: under "staging" or "production" requests are resolved by the
    production path whatever [dev_skip_auth] says. *)
Theorem validated_environment_gates_bypass (v e : string) (s : Settings)
    (env : Env) (req : Request) (w : World) :
  validate_environment v = Some e ->
  environment s = e ->
  e ∈ ["development"; "staging"; "production"]
  /\ validate_environment e = Some e
  /\ (auth_disabled s = true <-> e = "development" /\ dev_skip_auth s = true)
  /\ (e ≠ "development" ->
      resolve s env req w = production_path s env (bearer req) w).
Proof.
  unfold validate_environment. simpl.
  case_bool_decide as Hin; [|discriminate]. intros [= <-] He.
  assert (Hfix : py_lower (py_lower v) = py_lower v).
  { rewrite !elem_of_cons, elem_of_nil in Hin.
    destruct Hin as [-> | [-> | [-> | []]]]; reflexivity. }
  assert (Hdev : is_development s = bool_decide (py_lower v = "development")).
  { unfold is_development. rewrite He, Hfix. reflexivity. }
  split; [exact Hin|]. split.
  { rewrite Hfix, bool_decide_eq_true_2 by exact Hin. reflexivity. }
  split.
  - unfold auth_disabled. rewrite Hdev, andb_true_iff, bool_decide_eq_true.
    reflexivity.
  - intros Hne. unfold resolve, get_current_user, auth_disabled.
    rewrite Hdev, bool_decide_eq_false_2 by exact Hne. reflexivity.
Qed.

End ResolverFurther.

Lemma get_jwks_state_change_witness :
  Fabricated.FAKE_JWKS
  = jwks_cache
      (_get_jwks prod_settings 200000 (fun _ => FetchFail) warm_world).2
  \/ (cognito_configured prod_settings = false /\ Fabricated.FAKE_JWKS = ∅).
Proof.
  pose proof (get_jwks_state_change prod_settings 200000
                (fun _ => FetchFail) warm_world) as (_ & Hret & _).
  exact (Hret Fabricated.FAKE_JWKS eq_refl).
Defined.

Lemma dev_bypass_reads_only_table_and_header_witness :
  @resolve fab dev_settings quiet_env
    {| bearer := Some "not.a.jwt"; x_dev_user_id := Some "sub-officer" |}
    warm_world
  = @resolve fab dev_settings rotating_env
      {| bearer := None; x_dev_user_id := Some "sub-officer" |} warm_world.
Proof.
  exact (proj1 (@dev_bypass_reads_only_table_and_header fab dev_settings
                  quiet_env rotating_env (Some "not.a.jwt") None
                  (Some "sub-officer") warm_world eq_refl eq_refl)).
Defined.

Lemma dev_override_resolves_named_user_witness :
  @resolve fab dev_settings quiet_env
    {| bearer := None; x_dev_user_id := Some "sub-officer" |} warm_world
  = (Ok Fabricated.officer, warm_world).
Proof.
  apply (@dev_override_resolves_named_user fab dev_settings quiet_env None
           "sub-officer" warm_world Fabricated.officer eq_refl).
  - discriminate.
  - reflexivity.
Defined.

Lemma production_identity_is_token_subject_witness :
  exists (tok : string) (payload : gmap string json),
    bearer (with_token "good") = Some tok
    /\ payload !! "sub" = Some (JStr "sub-officer").
Proof.
  destruct (@production_identity_is_token_subject fab prod_settings quiet_env
              (with_token "good") warm_world warm_world Fabricated.officer
              eq_refl eq_refl)
    as (tok & jwks & payload & Hb & _ & _ & Hs & _).
  exists tok, payload. split; [exact Hb | exact Hs].
Defined.

Lemma resolve_failure_statuses_witness :
  status_code ServiceUnavailable = 401
  \/ (status_code ServiceUnavailable = 503
      /\ auth_disabled prod_settings = false
      /\ (ServiceUnavailable = AuthNotConfigured
          \/ ServiceUnavailable = ServiceUnavailable)).
Proof.
  exact (@resolve_failure_statuses fab prod_settings quiet_env
           (with_token "good") initial_world
           {| jwks_cache := ∅; jwks_fetched_at := 0; http_gets := 1 |}
           ServiceUnavailable eq_refl).
Defined.

Lemma resolve_network_use_witness :
  (@resolve fab prod_settings rotating_env (with_header (Some "sub-officer"))
     initial_world).2
  = initial_world.
Proof.
  apply (proj2 (@resolve_network_use fab prod_settings rotating_env
                  (with_header (Some "sub-officer")) initial_world)).
  right. left. reflexivity.
Defined.

Lemma guard_passes_only_listed_roles_witness :
  "ADMIN" ∈ ["ADMIN"; "DISPATCHER"].
Proof.
  refine (proj2 (@guard_passes_only_listed_roles fab ["ADMIN"; "DISPATCHER"]
                   dev_settings quiet_env (with_header (Some "sub-admin-new"))
                   warm_world warm_world Fabricated.admin_new eq_refl) _).
  discriminate.
Defined.

Lemma guard_monotone_in_roles_witness :
  @guarded fab ["ADMIN"; "DISPATCHER"] dev_settings quiet_env
    (with_header (Some "sub-admin-new")) warm_world
  = (Ok Fabricated.admin_new, warm_world).
Proof.
  refine (proj1 (@guard_monotone_in_roles fab ["ADMIN"]
                   ["ADMIN"; "DISPATCHER"] dev_settings quiet_env
                   (with_header (Some "sub-admin-new")) warm_world warm_world
                   Fabricated.admin_new _ _ eq_refl)).
  - discriminate.
  - intros r Hr. apply list_elem_of_singleton in Hr as ->.
    apply elem_of_cons. left. reflexivity.
Defined.

Lemma validated_environment_gates_bypass_witness :
  validate_environment "Staging" = Some "staging"
  /\ @resolve fab (Fabricated.settings_for "staging" true) quiet_env
       (with_header (Some "sub-admin-old")) warm_world
     = (HTTPError NotAuthenticated, warm_world).
Proof.
  split; [reflexivity|].
  pose proof (@validated_environment_gates_bypass fab "Staging" "staging"
                (Fabricated.settings_for "staging" true) quiet_env
                (with_header (Some "sub-admin-old")) warm_world
                eq_refl eq_refl) as (_ & _ & _ & Hprod).
  rewrite Hprod by discriminate. reflexivity.
Defined.

(* ===================================================================== *)
(** * Database credentials *)
(* ===================================================================== *)

(** In development the credentials are the local ones, whatever the remote
    fields hold and whatever Secrets Manager would answer; the function
    cannot fail. *)
Theorem dev_credentials_are_local (s : Settings) (d : DbSettings)
    (secret : SecretOutcome) :
  is_development s = true ->
  _resolve_db_credentials s d secret
  = inl {| c_host := local_db_host d; c_port := local_db_port d;
           c_name := local_db_name d; c_user := local_db_user d;
           c_password := local_db_password d |}.
Proof.
  intros Hd. unfold _resolve_db_credentials. rewrite Hd. reflexivity.
Qed.

Lemma dev_credentials_are_local_witness :
  _resolve_db_credentials default_settings default_db_settings SecretFail
  = inl {| c_host := "localhost"; c_port := 5433;
           c_name := "one_system_dev"; c_user := "postgres";
           c_password := "localpassword" |}.
Proof.
  exact (dev_credentials_are_local default_settings default_db_settings
           SecretFail eq_refl).
Defined.

(** Outside development: without [DB_HOST] the function raises, whether or
    not a password is set, and Secrets Manager is not asked; with host and
    password set the answer is read off the settings and Secrets Manager is
    not asked either; with a host and no password the secret supplies the
    password and, if it names one, the user, and a failing lookup raises.
    Credentials returned always carry a non-empty host. *)
Theorem remote_credentials (s : Settings) (d : DbSettings)
    (secret : SecretOutcome) :
  is_development s = false ->
  (db_host d = "" ->
   exists msg, forall secret',
     _resolve_db_credentials s d secret' = inr msg)
  /\ (db_host d ≠ "" -> db_password d ≠ "" ->
      forall secret',
        _resolve_db_credentials s d secret'
        = inl {| c_host := db_host d; c_port := db_port d;
                 c_name := db_name d; c_user := db_user d;
                 c_password := db_password d |})
  /\ (db_host d ≠ "" -> db_password d = "" ->
      match secret with
      | SecretOk creds =>
          _resolve_db_credentials s d secret
          = inl {| c_host := db_host d; c_port := db_port d;
                   c_name := db_name d;
                   c_user := default (db_user d) (creds !! "username");
                   c_password := default "" (creds !! "password") |}
      | SecretFail =>
          _resolve_db_credentials s d secret
          = inr "Cannot connect to database: missing credentials"
      end)
  /\ (forall c, _resolve_db_credentials s d secret = inl c -> c_host c ≠ "").
Proof.
  intros Hd. unfold _resolve_db_credentials. rewrite Hd.
  split; [|split; [|split]].
  - intros Hh. rewrite Hh. simpl. eexists. intros secret'. reflexivity.
  - intros Hh Hp secret'.
    rewrite (bool_decide_eq_false_2 (db_host d = "")) by exact Hh.
    rewrite (bool_decide_eq_false_2 (db_password d = "")) by exact Hp.
    reflexivity.
  - intros Hh Hp.
    rewrite (bool_decide_eq_false_2 (db_host d = "")) by exact Hh.
    rewrite (bool_decide_eq_true_2 (db_password d = "")) by exact Hp.
    destruct secret; reflexivity.
  - intros c.
    destruct (decide (db_host d = "")) as [Hh|Hh].
    + rewrite (bool_decide_eq_true_2 (db_host d = "")) by exact Hh.
      simpl. discriminate.
    + rewrite (bool_decide_eq_false_2 (db_host d = "")) by exact Hh.
      simpl.
      destruct (if bool_decide (db_password d = "") then _ else _)
        as [[p u]|msg]; [|discriminate].
      intros [= <-]. exact Hh.
Qed.

Lemma remote_credentials_witness :
  exists msg,
    _resolve_db_credentials prod_settings default_db_settings
      (SecretOk {[ "password" := "s3cret" ]})
    = inr msg.
Proof.
  destruct (remote_credentials prod_settings default_db_settings SecretFail
              eq_refl) as (Hnohost & _).
  destruct (Hnohost eq_refl) as [msg Hmsg].
  exists msg. apply Hmsg.
Defined.

(* ===================================================================== *)
(** * Reference-data cache *)
(* ===================================================================== *)

Section RefCacheProps.
Context {A : Type}.
Implicit Types (c : gmap string (Z * A)) (key : string) (v rows : A).


(** A value stored is read back for 300 ticks of the monotonic clock and
    the read changes nothing; from then on a read finds nothing and removes
    the entry. *)
Theorem cache_set_get (now t : Z) key v c :
  (now - t < _CACHE_TTL ->
   _cache_get now key (_cache_set t key v c)
   = (Some v, _cache_set t key v c))
  /\ (_CACHE_TTL <= now - t ->
      _cache_get now key (_cache_set t key v c) = (None, delete key c)).
Proof.
  unfold _cache_get, _cache_set. rewrite lookup_insert_eq. split; intros Ht.
  - rewrite bool_decide_eq_true_2 by exact Ht. reflexivity.
  - rewrite bool_decide_eq_false_2 by lia. rewrite delete_insert_eq.
    reflexivity.
Qed.

Lemma cache_get_frame_aux (now : Z) key c :
  (forall key', key' ≠ key -> (_cache_get now key c).2 !! key' = c !! key')
  /\ ((_cache_get now key c).1 = None ->
      (_cache_get now key c).2 !! key = None)
  /\ (forall v, (_cache_get now key c).1 = Some v ->
        (_cache_get now key c).2 = c
        /\ exists ts, c !! key = Some (ts, v) /\ now - ts < _CACHE_TTL).
Proof.
  unfold _cache_get.
  destruct (c !! key) as [[ts value]|] eqn:Hk.
  - case_bool_decide as Ht; simpl.
    + split; [reflexivity|]. split; [discriminate|].
      intros v [= <-]. split; [reflexivity|]. exists ts. auto.
    + split; [intros key' Hne; apply lookup_delete_ne; congruence|].
      split; [intros _; apply lookup_delete_eq|discriminate].
  - simpl. split; [reflexivity|]. split; [intros _; exact Hk|discriminate].
Qed.

(** A read concerns its own key only: the entries under other keys are as
    before; and a read that misses leaves no entry under its key. *)
Theorem cache_get_frame (now : Z) key c :
  (forall key', key' ≠ key -> (_cache_get now key c).2 !! key' = c !! key')
  /\ ((_cache_get now key c).1 = None ->
      (_cache_get now key c).2 !! key = None)
  /\ (forall v, (_cache_get now key c).1 = Some v ->
        (_cache_get now key c).2 = c
        /\ exists ts, c !! key = Some (ts, v) /\ now - ts < _CACHE_TTL).
Proof.
  unfold _cache_get.
  destruct (c !! key) as [[ts value]|] eqn:Hk.
  - case_bool_decide as Ht; simpl.
    + split; [reflexivity|]. split; [discriminate|].
      intros v [= <-]. split; [reflexivity|]. exists ts. auto.
    + split; [intros key' Hne; apply lookup_delete_ne; congruence|].
      split; [intros _; apply lookup_delete_eq|discriminate].
  - simpl. split; [reflexivity|]. split; [intros _; exact Hk|discriminate].
Qed.


(** The listings do not disturb one another: serving one key leaves what a
    request for another key is answered. *)
Theorem cached_listing_independent (key key' : string)
    (now later now' later' : Z) rows (rows' : A) c :
  key ≠ key' ->
  (cached_listing key' now' later' rows'
     (cached_listing key now later rows c).2).1
  = (cached_listing key' now' later' rows' c).1.
Proof.
  intros Hne.
  assert (Hsame : (cached_listing key now later rows c).2 !! key'
                  = c !! key').
  { unfold cached_listing.
    pose proof (cache_get_frame_aux now key c) as (Hframe & _).
    destruct (_cache_get now key c) as [[cached|] c1]; simpl in *.
    - apply Hframe. congruence.
    - unfold _cache_set. rewrite lookup_insert_ne by exact Hne.
      apply Hframe. congruence. }
  unfold cached_listing at 1 3. unfold _cache_get. rewrite Hsame.
  destruct (c !! key') as [[ts value]|]; [|reflexivity].
  case_bool_decide; reflexivity.
Qed.

End RefCacheProps.

Lemma cache_set_get_witness :
  _cache_get 399 "sla_config" (_cache_set 100 "sla_config" [4; 8] ∅)
  = (Some [4; 8], _cache_set 100 "sla_config" [4; 8] ∅)
  /\ _cache_get 400 "sla_config" (_cache_set 100 "sla_config" [4; 8] ∅)
     = (None, delete "sla_config" ∅).
Proof.
  pose proof (@cache_set_get (list Z) 399 100 "sla_config" [4; 8] ∅)
    as [Hhit _].
  pose proof (@cache_set_get (list Z) 400 100 "sla_config" [4; 8] ∅)
    as [_ Hexp].
  split; [apply Hhit | apply Hexp]; unfold _CACHE_TTL; lia.
Defined.

Lemma cache_get_frame_witness :
  (_cache_get 400 "sla_config"
     (_cache_set 100 "sla_config" [4; 8]
        (_cache_set 350 "service_types" [1] ∅))).2 !! "service_types"
  = Some (350, [1]).
Proof.
  pose proof (@cache_get_frame (list Z) 400 "sla_config"
                (_cache_set 100 "sla_config" [4; 8]
                   (_cache_set 350 "service_types" [1] ∅)))
    as (Hframe & _).
  rewrite Hframe by discriminate. reflexivity.
Defined.


Lemma cached_listing_independent_witness :
  (@get_complaint_types (list string) 20 21 ["road"]
     (@get_service_types (list string) 10 12 ["repair"] ∅).2).1
  = ["road"].
Proof.
  unfold get_complaint_types, get_service_types.
  rewrite (@cached_listing_independent (list string) "service_types"
             "complaint_types" 10 12 20 21 ["repair"] ["road"] ∅)
    by discriminate.
  reflexivity.
Defined.

(** A user returned by the production path is a row of the table. *)
Lemma production_identity_is_token_subject_helper `{JoseLib} (s : Settings)
    (env : Env) (req : Request) (w w' : World) (u : User) :
  auth_disabled s = false ->
  resolve s env req w = (Ok u, w') ->
  u ∈ db env.
Proof.
  intros Hoff. unfold resolve, get_current_user. rewrite Hoff. intros Hok.
  apply production_path_ok_inv in Hok as (? & ? & p & _ & _ & _ & _ & Hu & _).
  unfold find_user_by_sub in Hu.
  destruct (p !! "sub") as [[| | |t| |]|]; try discriminate.
  apply find_some in Hu as [Hin _]. apply list_elem_of_In. exact Hin.
Qed.

(* ===================================================================== *)
(** * User management *)
(* ===================================================================== *)

Lemma find_by_email_none (mail : string) (tbl : list UserRow) :
  find_by_email mail tbl = None -> mail ∉ emails tbl.
Proof.
  unfold find_by_email, emails. intros Hf Hin.
  apply list_elem_of_omap in Hin as (r & Hr & He).
  apply list_elem_of_In in Hr.
  pose proof (find_none _ _ Hf r Hr) as Hb. simpl in Hb.
  apply bool_decide_eq_false in Hb. contradiction.
Qed.

Lemma create_user_appends_one_row_aux (s : Settings) (cog : Cognito)
    (fresh : Fresh) (payload : UserCreate) (st st' : Backend)
    (r : api_result UserResponse) :
  create_user_body s cog fresh payload st = (r, st') ->
  (users_table st' = users_table st /\ forall resp, r ≠ Returned resp)
  \/ (exists row,
        users_table st' = (users_table st ++ [row])%list
        /\ r = Returned (model_validate row)
        /\ is_active (core row) = true
        /\ role (core row) = role_name (uc_role payload)
        /\ full_name (core row) = uc_full_name payload
        /\ email (core row) = Some (uc_email payload)
        /\ responsible_province row = uc_responsible_province payload
        /\ (id (core row) ∉ map (fun x => id (core x)) (users_table st))
        /\ (cognito_user_id (core row)
             ∉ map (fun x => cognito_user_id (core x)) (users_table st))
        /\ (NoDup (emails (users_table st)) ->
            NoDup (emails (users_table st')))).
Proof.
  unfold create_user_body.
  destruct (find_by_email (uc_email payload) (users_table st)) eqn:Hmail.
  { intros [= <- <-]. left. split; [reflexivity|discriminate]. }
  destruct (_cognito_create_user cog _ _ _ _) as [[answer|e] calls].
  2:{ intros [= <- <-]. left. split; [reflexivity|discriminate]. }
  destruct (negb (fits_columns _)).
  { intros [= <- <-]. left. split; [reflexivity|discriminate]. }
  destruct (bool_decide (new_id fresh ∈ _)) eqn:Hid; simpl.
  { intros [= <- <-]. left. split; [reflexivity|discriminate]. }
  destruct (bool_decide (default (new_sub fresh) answer ∈ _)) eqn:Hsub.
  { intros [= <- <-]. left. split; [reflexivity|discriminate]. }
  intros [= <- <-]. right. eexists. simpl.
  split; [reflexivity|]. split; [reflexivity|].
  apply bool_decide_eq_false in Hid, Hsub.
  repeat (split; [first [reflexivity | assumption]|]).
  intros Hnd. unfold emails. rewrite omap_app. simpl.
  apply NoDup_app. split; [exact Hnd|]. split; [|apply NoDup_singleton].
  intros x Hx Hx'. apply list_elem_of_singleton in Hx'. subst x.
  exact (find_by_email_none _ _ Hmail Hx).
Qed.


(** A row just created is the one found under its subject: with the bypass
    on, a request carrying that subject in [X-Dev-User-ID] is resolved to
    the new user. *)
Theorem created_user_is_resolvable `{JoseLib} (s : Settings) (cog : Cognito)
    (fresh : Fresh) (payload : UserCreate) (st st' : Backend)
    (resp : UserResponse) :
  create_user_body s cog fresh payload st = (Returned resp, st') ->
  exists row,
    last (users_table st') = Some row
    /\ model_validate row = resp
    /\ find_user_by_sub (map core (users_table st'))
         (Some (JStr (cognito_user_id (core row)))) = Some (core row)
    /\ (auth_disabled s = true ->
        cognito_user_id (core row) ≠ "" ->
        forall env token w,
          resolve s (env_on env st')
            {| bearer := token;
               x_dev_user_id := Some (cognito_user_id (core row)) |} w
          = (Ok (core row), w)).
Proof.
  intros Hc.
  destruct (create_user_appends_one_row_aux _ _ _ _ _ _ _ Hc)
    as [[_ Hno]|(row & Htbl & Hr & _ & _ & _ & _ & _ & _ & Hsub & _)].
  { exfalso. exact (Hno resp eq_refl). }
  injection Hr as ->.
  assert (Hfind : find (fun v => bool_decide
                          (cognito_user_id v = cognito_user_id (core row)))
                    (map core (users_table st')) = Some (core row)).
  { rewrite Htbl, map_app. simpl.
    assert (Hnone : find (fun v => bool_decide
                            (cognito_user_id v = cognito_user_id (core row)))
                      (map core (users_table st)) = None).
    { destruct (find _ (map core (users_table st))) as [v|] eqn:Hv;
        [|reflexivity].
      apply find_some in Hv as [Hin Heq]. apply bool_decide_eq_true in Heq.
      exfalso. apply Hsub. rewrite <- Heq.
      apply list_elem_of_In in Hin.
      apply list_elem_of_fmap in Hin as (x & -> & Hx).
      apply list_elem_of_fmap. exists x. auto. }
    revert Hnone. generalize (map core (users_table st)).
    intros l. induction l as [|a l IH]; simpl.
    - intros _. rewrite bool_decide_eq_true_2 by reflexivity. reflexivity.
    - destruct (bool_decide _); [discriminate|]. exact IH. }
  exists row. split; [rewrite Htbl; apply last_snoc|].
  split; [reflexivity|]. split; [exact Hfind|].
  intros Hon Hne env token w.
  unfold resolve, get_current_user, context_var, dev_auth_middleware.
  rewrite Hon. unfold dev_bypass_path, truthy. simpl.
  rewrite (bool_decide_eq_false_2 (_ = "")) by exact Hne. simpl.
  rewrite Hfind. reflexivity.
Qed.

Lemma apply_update_id (payload : UserUpdate) (u : UserRow) :
  id (core (apply_update payload u)) = id (core u).
Proof. reflexivity. Qed.



Section ReplaceById.
Variables (user_id : Z) (user user' : UserRow).
Hypothesis Hid' : id (core user') = user_id.





Lemma replace_by_id_only (tbl : list UserRow) (x : UserRow) :
  NoDup (map (fun r => id (core r)) tbl) ->
  find_by_id user_id tbl = Some user ->
  x ∈ replace_by_id user_id user' tbl ->
  id (core x) = user_id ->
  x = user'.
Proof.
  unfold find_by_id. induction tbl as [|r tbl IH]; simpl; [discriminate|].
  intros Hnd. apply NoDup_cons in Hnd as [Hnotin Hnd].
  case_bool_decide as Hr.
  - intros _ Hx Hxid. apply elem_of_cons in Hx as [Hx|Hx]; [exact Hx|].
    exfalso. apply Hnotin. rewrite Hr, <- Hxid.
    apply list_elem_of_fmap. exists x. auto.
  - intros Hf Hx Hxid. apply elem_of_cons in Hx as [Hx|Hx].
    + subst x. contradiction.
    + apply IH; assumption.
Qed.

End ReplaceById.



(** Deactivation locks the account out of the production path: once
    [update_user] has set [is_active] to false, no request, whatever its
    token, is resolved to the user of that [id]. *)
Theorem deactivated_user_is_locked_out `{JoseLib} (s : Settings)
    (cog : Cognito) (user_id : Z) (payload : UserUpdate) (st st' : Backend)
    (resp : UserResponse) :
  NoDup (map (fun r => id (core r)) (users_table st)) ->
  auth_disabled s = false ->
  uu_is_active payload = Some false ->
  update_user_body s cog user_id payload st = (Returned resp, st') ->
  forall env req w u w',
    resolve s (env_on env st') req w = (Ok u, w') ->
    id u ≠ user_id.
Proof.
  intros Hnd Hoff Hact Hupd env req w u w' Hres Hu.
  pose proof (resolve_active_elsewhere s _ req w w' u (or_introl Hoff) Hres)
    as Hactive.
  pose proof (production_identity_is_token_subject_helper s _ req w w' u
                Hoff Hres) as Hin.
  simpl in Hin. apply list_elem_of_fmap in Hin as (row & -> & Hrow).
  unfold update_user_body in Hupd.
  destruct (find_by_id user_id (users_table st)) as [user|] eqn:Hf;
    [|discriminate].
  destruct (negb (fits_columns _)); [discriminate|].
  injection Hupd as _ <-. simpl in Hrow.
  assert (Hid : id (core (apply_update payload user)) = user_id).
  { rewrite apply_update_id. unfold find_by_id in Hf.
    apply find_some in Hf as [_ Hb]. apply bool_decide_eq_true in Hb.
    exact Hb. }
  pose proof (replace_by_id_only user_id user _ _ row Hnd Hf Hrow Hu)
    as ->.
  simpl in Hactive. rewrite Hact in Hactive. discriminate.
Qed.

Lemma ceil_div_bounds (total k : Z) :
  0 < k ->
  total <= - ((- total) `div` k) * k < total + k.
Proof.
  intros Hk.
  pose proof (Z.div_mod (- total) k ltac:(lia)) as Hdm.
  pose proof (Z.mod_pos_bound (- total) k Hk) as Hr. nia.
Qed.

Lemma chunks_take {A B} (f : A -> B) (k : nat) (l : list A) (n : nat) :
  flat_map (fun i => map f (take k (drop (i * k) l))) (seq 0 n)
  = map f (take (n * k) l).
Proof.
  induction n as [|n IH]; [reflexivity|].
  rewrite seq_S, flat_map_app, IH. simpl. rewrite app_nil_r.
  rewrite <- map_app, take_take_drop. f_equal. f_equal. lia.
Qed.

Lemma list_users_body_page (page page_size : Z) (st : Backend) :
  1 <= page -> 1 <= page_size ->
  list_users_body page page_size st
  = Returned {|
      l_items :=
        map model_validate
          (take (Z.to_nat (Z.min page_size 100))
             (drop (Z.to_nat ((page - 1) * Z.min page_size 100))
                (users_table st)));
      l_total := Z.of_nat (List.length (users_table st));
      l_page := page;
      l_page_size := Z.min page_size 100;
      l_pages :=
        if bool_decide (Z.of_nat (List.length (users_table st)) = 0) then 0
        else - ((- Z.of_nat (List.length (users_table st)))
                  `div` Z.min page_size 100) |}.
Proof.
  intros Hp Hs. unfold list_users_body.
  rewrite (bool_decide_eq_false_2 (_ < 0)) by nia.
  rewrite (bool_decide_eq_false_2 (Z.min page_size 100 < 0)) by lia.
  simpl. case_bool_decide; [reflexivity|].
  rewrite (bool_decide_eq_false_2 (Z.min page_size 100 = 0)) by lia.
  reflexivity.
Qed.

(** A page of [list_users], for a page number and a page size of at least
    one: the page size is capped at 100; the items are the rows of the
    window of that size starting (page - 1) sizes into the table, so at most
    100 of them; [pages] is the least number of pages that hold [total]
    rows; and a page past the last is empty. *)
Theorem list_users_window (page page_size : Z) (st : Backend) :
  1 <= page -> 1 <= page_size ->
  exists resp,
    list_users_body page page_size st = Returned resp
    /\ l_page_size resp = Z.min page_size 100
    /\ l_total resp = Z.of_nat (List.length (users_table st))
    /\ l_items resp
       = map model_validate
           (take (Z.to_nat (l_page_size resp))
              (drop (Z.to_nat ((page - 1) * l_page_size resp))
                 (users_table st)))
    /\ Z.of_nat (List.length (l_items resp)) <= l_page_size resp <= 100
    /\ (l_pages resp - 1) * l_page_size resp < l_total resp
       <= l_pages resp * l_page_size resp
    /\ (l_pages resp < page -> l_items resp = []).
Proof.
  intros Hp Hs. rewrite (list_users_body_page page page_size st Hp Hs).
  eexists. split; [reflexivity|]. simpl.
  set (k := Z.min page_size 100). set (tbl := users_table st).
  assert (Hk : 1 <= k <= 100) by (unfold k; lia).
  split; [reflexivity|]. split; [reflexivity|]. split; [reflexivity|].
  split.
  { rewrite length_map, length_take. lia. }
  assert (Hpages :
    (((if bool_decide (Z.of_nat (List.length tbl) = 0) then 0
       else - ((- Z.of_nat (List.length tbl)) `div` k)) - 1) * k
     < Z.of_nat (List.length tbl)
     <= (if bool_decide (Z.of_nat (List.length tbl) = 0) then 0
         else - ((- Z.of_nat (List.length tbl)) `div` k)) * k)).
  { case_bool_decide as Hz; [lia|].
    pose proof (ceil_div_bounds (Z.of_nat (List.length tbl)) k ltac:(lia)).
    nia. }
  split; [exact Hpages|].
  intros Hlast. rewrite drop_ge; [rewrite take_nil; reflexivity|].
  apply Nat2Z.inj_le. rewrite Z2Nat.id by nia. nia.
Qed.

(** Pages cut from one and the same scan, from the first to the last
    announced, put end to end, are that scan. *)
Lemma pages_of_one_scan (page_size : Z) (st : Backend)
    (resp : UserListResponse) :
  1 <= page_size ->
  list_users_body 1 page_size st = Returned resp ->
  flat_map
    (fun i => items_of (list_users_body (Z.of_nat i + 1) page_size st))
    (seq 0 (Z.to_nat (l_pages resp)))
  = map model_validate (users_table st).
Proof.
  intros Hs Hfirst.
  rewrite (list_users_body_page 1 page_size st) in Hfirst by lia.
  injection Hfirst as <-. simpl.
  set (k := Z.min page_size 100). set (tbl := users_table st).
  assert (Hk : 1 <= k <= 100) by (unfold k; lia).
  erewrite flat_map_ext.
  2:{ intros i. rewrite list_users_body_page by lia. simpl.
      fold k. fold tbl.
      replace (Z.to_nat ((Z.of_nat i + 1 - 1) * k))
        with (i * Z.to_nat k)%nat by nia.
      reflexivity. }
  rewrite (chunks_take model_validate (Z.to_nat k) tbl).
  rewrite take_ge; [reflexivity|].
  case_bool_decide as Hz; [lia|].
  pose proof (ceil_div_bounds (Z.of_nat (List.length tbl)) k ltac:(lia)).
  nia.
Qed.

(** With a page size of zero the endpoint returns only for an empty table;
    for any other it leaves with [ZeroDivisionError], whatever the page. *)
Theorem list_users_zero_page_size (page : Z) (st : Backend) :
  (users_table st = [] ->
   list_users_body page 0 st
   = Returned {| l_items := []; l_total := 0; l_page := page;
                 l_page_size := 0; l_pages := 0 |})
  /\ (users_table st ≠ [] ->
      list_users_body page 0 st = Crashed ZeroDivisionError).
Proof.
  unfold list_users_body. change (Z.min 0 100) with 0.
  rewrite Z.mul_0_r. change (bool_decide (0 < 0)) with false.
  cbn [orb take Z.to_nat].
  split.
  - intros ->. reflexivity.
  - intros Hne. destruct (users_table st) as [|r tbl]; [contradiction|].
    rewrite bool_decide_eq_false_2 by (simpl; lia). reflexivity.
Qed.

Section AdminOnly.
Context `{JoseLib}.

Lemma behind_admin_inv {A} (s : Settings) (env : Env) (req : Request)
    (body : User -> Backend -> api_result A * Backend)
    (w w' : World) (st st' : Backend) (r : api_result A) :
  behind (admin_only s env req) body (w, st) = (r, (w', st')) ->
  (exists u,
     resolve s (env_on env st) req w = (Ok u, w')
     /\ role u = "ADMIN"
     /\ body u st = (r, st'))
  \/ (st' = st /\ forall a, r ≠ Returned a).
Proof.
  unfold behind, admin_only, guarded, resolve, require_role, _check_role,
    bind.
  destruct (get_current_user s (env_on env st) (bearer req)
              (context_var s req) w) as [[u|e|x] w1].
  - simpl.
    destruct (bool_decide (role u ∈ ["ADMIN"])) eqn:Hin; simpl.
    + destruct (body u st) as [r1 st1] eqn:Hb. intros [= <- <- <-].
      left. exists u. apply bool_decide_eq_true in Hin.
      apply list_elem_of_singleton in Hin. auto.
    + intros [= <- <- <-]. right. split; [reflexivity|discriminate].
  - intros [= <- <- <-]. right. split; [reflexivity|discriminate].
  - intros [= <- <- <-]. right. split; [reflexivity|discriminate].
Qed.

(** Only a caller resolved to a user of role ADMIN can change the table or
    reach the provider through [create_user] or [update_user], or be
    returned a listing by [list_users]; for any other caller the backend is
    as it was. *)
Theorem user_management_needs_admin (s : Settings) (env : Env)
    (cog : Cognito) (fresh : Fresh) (req : Request) (w : World)
    (st : Backend) :
  (forall payload r w' st',
     create_user s env cog fresh req payload (w, st) = (r, (w', st')) ->
     st' ≠ st ->
     exists u, resolve s (env_on env st) req w = (Ok u, w')
               /\ role u = "ADMIN")
  /\ (forall user_id payload r w' st',
        update_user s env cog req user_id payload (w, st) = (r, (w', st')) ->
        st' ≠ st ->
        exists u, resolve s (env_on env st) req w = (Ok u, w')
                  /\ role u = "ADMIN")
  /\ (forall page page_size resp w' st',
        list_users s env req page page_size (w, st)
        = (Returned resp, (w', st')) ->
        st' = st
        /\ exists u, resolve s (env_on env st) req w = (Ok u, w')
                     /\ role u = "ADMIN").
Proof.
  split; [|split].
  - intros payload r w' st' Hc Hne.
    apply behind_admin_inv in Hc as [(u & Hu & Hr & _)|[Heq _]]; [eauto|].
    contradiction.
  - intros user_id payload r w' st' Hc Hne.
    apply behind_admin_inv in Hc as [(u & Hu & Hr & _)|[Heq _]]; [eauto|].
    contradiction.
  - intros page page_size resp w' st' Hc.
    apply behind_admin_inv in Hc as [(u & Hu & Hr & Hb)|[_ Hno]].
    + injection Hb as _ <-. eauto.
    + exfalso. exact (Hno resp eq_refl).
Qed.

End AdminOnly.

Lemma user_management_needs_admin_witness :
  exists u,
    @resolve fab dev_settings (env_on quiet_env office)
      (with_header (Some "sub-admin-old")) warm_world
    = (Ok u, warm_world)
    /\ role u = "ADMIN".
Proof.
  pose proof (@user_management_needs_admin fab dev_settings quiet_env
                no_cognito fresh_values (with_header (Some "sub-admin-old"))
                warm_world office) as (Hcreate & _ & _).
  refine (Hcreate new_dispatcher
            (Returned (model_validate new_dispatcher_row)) warm_world
            {| users_table := (users_table office ++ [new_dispatcher_row])%list;
               cognito_calls := [] |} eq_refl _).
  discriminate.
Defined.


Lemma created_user_is_resolvable_witness :
  exists row,
    last (users_table office ++ [new_dispatcher_row])%list = Some row
    /\ model_validate row = model_validate new_dispatcher_row.
Proof.
  destruct (@created_user_is_resolvable fab dev_settings no_cognito
              fresh_values new_dispatcher office
              {| users_table := (users_table office ++ [new_dispatcher_row])%list;
                 cognito_calls := [] |}
              (model_validate new_dispatcher_row) eq_refl)
    as (row & Hlast & Hresp & _).
  exists row. split; [exact Hlast | exact Hresp].
Defined.



Lemma office_ids_distinct :
  NoDup (map (fun r => id (core r)) (users_table office)).
Proof.
  apply NoDup_ListNoDup. simpl. repeat constructor; simpl; intuition lia.
Qed.

Lemma deactivated_user_is_locked_out_witness :
  ~ exists w',
      @resolve fab prod_settings
        (env_on quiet_env
           (update_user_body prod_settings no_cognito 3 deactivate office).2)
        (with_token "good") warm_world
      = (Ok (core (apply_update deactivate (as_row Fabricated.officer))), w').
Proof.
  intros [w' Hres].
  apply (@deactivated_user_is_locked_out fab prod_settings no_cognito 3
           deactivate office
           (update_user_body prod_settings no_cognito 3 deactivate office).2
           (model_validate
              (apply_update deactivate (as_row Fabricated.officer)))
           office_ids_distinct eq_refl eq_refl eq_refl quiet_env
           (with_token "good") warm_world _ w' Hres).
  reflexivity.
Defined.

Lemma list_users_window_witness :
  exists resp,
    list_users_body 2 3 office = Returned resp
    /\ l_items resp = [model_validate (as_row Fabricated.disabled)]
    /\ l_pages resp = 2.
Proof.
  destruct (list_users_window 2 3 office) as (resp & Hr & _); [lia|lia|].
  exists resp. split; [exact Hr|].
  assert (Hresp : Returned resp = list_users_body 2 3 office)
    by (symmetry; exact Hr).
  injection Hresp as ->. split; reflexivity.
Defined.

Lemma list_users_zero_page_size_witness :
  list_users_body 1 0 office = Crashed ZeroDivisionError.
Proof.
  apply (proj2 (list_users_zero_page_size 1 office)). discriminate.
Defined.

(* ===================================================================== *)
(** * The verifier over what [jwt.decode] checks *)
(* ===================================================================== *)

Lemma validate_registered_accepts (wall : Z) (c : gmap string json) :
  expired wall c = false ->
  other_registered_claims_pass wall c = true ->
  validate_registered wall c = Decoded c.
Proof.
  unfold other_registered_claims_pass, validate_registered.
  intros He Hp. rewrite !andb_true_iff in Hp.
  destruct Hp as [[[[_ Hn] Hs] Hj] Ha].
  apply negb_true_iff in Hn, Ha. rewrite Hn, He, Hs, Hj, Ha. reflexivity.
Qed.

Section VerifierSpec.
Context `{JoseSpec}.

(** With a verified signature and well-typed time claims the verdict is the
    one the registered claims give, then the issuer, then the token use. *)
Lemma verify_follows_registered_claims (s : Settings) (wall : Z)
    (token : string) (jwks : gmap string Jwk) (hdr : gmap string json)
    (k : string) (entry : Jwk) (payload : gmap string json) :
  get_unverified_header token = Some hdr ->
  hdr !! "kid" = Some (JStr k) ->
  jwks !! k = Some entry ->
  signature_verifies token entry = true ->
  claims_of token = Some payload ->
  well_typed_times payload = true ->
  _verify_cognito_jwt s wall token jwks
  = match validate_registered wall payload with
    | JWTError => HTTPError VerificationFailed
    | ExpiredSignatureError => HTTPError Expired
    | Decoded p =>
        if negb (json_eq_str (p !! "iss") (expected_issuer s))
        then HTTPError WrongIssuer
        else if negb (json_eq_str (p !! "token_use") "access")
        then HTTPError WrongTokenUse
        else Ok p
    end.
Proof.
  intros Hh Hkid Hk Hsig Hc Hwt.
  destruct (verified_key_builds token entry Hsig) as [key Hkey].
  rewrite (verify_with_key s wall token jwks hdr entry key Hh); [|auto|auto].
  - rewrite (decode_claims wall token entry key payload Hkey Hsig Hc Hwt).
    reflexivity.
  - unfold lookup_kid. rewrite Hkid. simpl. rewrite Hk. reflexivity.
Qed.

(** C3 (amended): a token whose header declares, by a string, a key id of
    the key set, whose RS256 signature verifies under the key published
    there, that is unexpired, whose other registered claims pass
    [jwt.decode] (["iat"] and ["nbf"] numbers, ["nbf"] not in the future,
    ["sub"] and ["jti"] strings when present, no ["at_hash"]), whose issuer
    is the one built from the configured region and pool and whose token use
    is "access", is accepted, and the claims returned are the token's own,
    subject included. *)
Theorem verify_accepts_signed_unexpired_access_token (s : Settings)
    (wall : Z) (token : string) (jwks : gmap string Jwk)
    (hdr : gmap string json) (k : string) (entry : Jwk)
    (payload : gmap string json) :
  get_unverified_header token = Some hdr ->
  hdr !! "kid" = Some (JStr k) ->
  jwks !! k = Some entry ->
  signature_verifies token entry = true ->
  claims_of token = Some payload ->
  expired wall payload = false ->
  other_registered_claims_pass wall payload = true ->
  payload !! "iss"
  = Some (JStr ("https://cognito-idp." ++ aws_region s ++ ".amazonaws.com/"
                ++ cognito_user_pool_id s)) ->
  payload !! "token_use" = Some (JStr "access") ->
  exists returned,
    _verify_cognito_jwt s wall token jwks = Ok returned
    /\ returned = payload
    /\ returned !! "sub" = payload !! "sub".
Proof.
  intros Hh Hkid Hk Hsig Hc He Hp Hi Hu. exists payload.
  split; [|split; reflexivity].
  assert (Hwt : well_typed_times payload = true).
  { unfold other_registered_claims_pass in Hp.
    rewrite !andb_true_iff in Hp. tauto. }
  rewrite (verify_follows_registered_claims s wall token jwks hdr k entry
             payload Hh Hkid Hk Hsig Hc Hwt).
  rewrite (validate_registered_accepts wall payload He Hp).
  change ("https://cognito-idp." ++ aws_region s ++ ".amazonaws.com/"
          ++ cognito_user_pool_id s) with (expected_issuer s) in Hi.
  apply json_eq_str_true in Hi, Hu. rewrite Hi, Hu. reflexivity.
Qed.

(** A token that meets every condition of the claim but carries a ["nbf"]
    later than the clock is refused with "Token verification failed". *)
Lemma verify_refuses_token_not_yet_valid (s : Settings) (wall : Z)
    (token : string) (jwks : gmap string Jwk) (hdr : gmap string json)
    (k : string) (entry : Jwk) (payload : gmap string json) :
  get_unverified_header token = Some hdr ->
  hdr !! "kid" = Some (JStr k) ->
  jwks !! k = Some entry ->
  signature_verifies token entry = true ->
  claims_of token = Some payload ->
  well_typed_times payload = true ->
  not_yet_valid wall payload = true ->
  _verify_cognito_jwt s wall token jwks = HTTPError VerificationFailed.
Proof.
  intros Hh Hkid Hk Hsig Hc Hwt Hn.
  rewrite (verify_follows_registered_claims s wall token jwks hdr k entry
             payload Hh Hkid Hk Hsig Hc Hwt).
  unfold validate_registered. rewrite Hn. reflexivity.
Qed.

End VerifierSpec.

(** The strict implementation meets the specification. *)
Section StrictMeetsSpec.
Variable tbl : gmap string Fabricated.Token.

Lemma strict_verified_key_builds (token : string) (entry : Jwk) :
  Strict.verifies tbl token entry = true ->
  is_Some (Fabricated.construct entry).
Proof.
  unfold Strict.verifies. destruct (tbl !! token); [|discriminate].
  destruct (Fabricated.construct entry); [eauto|discriminate].
Qed.

Lemma strict_decode_bad_signature (wall : Z) (token : string) (entry : Jwk)
    (key : Z) :
  Fabricated.construct entry = Some key ->
  Strict.verifies tbl token entry = false ->
  Strict.decode tbl wall token key = JWTError.
Proof.
  unfold Strict.verifies, Strict.decode. intros ->.
  destruct (tbl !! token); [|reflexivity]. intros ->. reflexivity.
Qed.

Lemma strict_decode_bad_payload (wall : Z) (token : string) (entry : Jwk)
    (key : Z) :
  Fabricated.construct entry = Some key ->
  Strict.verifies tbl token entry = true ->
  Strict.payload_of tbl token = None ->
  Strict.decode tbl wall token key = JWTError.
Proof.
  unfold Strict.verifies, Strict.payload_of, Strict.decode. intros ->.
  destruct (tbl !! token); [discriminate|reflexivity].
Qed.

Lemma strict_decode_claims (wall : Z) (token : string) (entry : Jwk)
    (key : Z) (c : gmap string json) :
  Fabricated.construct entry = Some key ->
  Strict.verifies tbl token entry = true ->
  Strict.payload_of tbl token = Some c ->
  well_typed_times c = true ->
  Strict.decode tbl wall token key = validate_registered wall c.
Proof.
  unfold Strict.verifies, Strict.payload_of, Strict.decode. intros ->.
  destruct (tbl !! token) as [t|]; [|discriminate]. simpl.
  intros -> [= <-] ->. reflexivity.
Qed.

Definition strict_spec : @JoseSpec (Strict.lib tbl).
Proof.
  refine (@Build_JoseSpec (Strict.lib tbl) (Strict.verifies tbl)
            (Strict.payload_of tbl) _ _ _ _).
  - exact strict_verified_key_builds.
  - exact strict_decode_bad_signature.
  - exact strict_decode_bad_payload.
  - exact strict_decode_claims.
Defined.

End StrictMeetsSpec.

(** C3, as stated, fails: the token "early" declares the test key, is
    signed by it, expires at 5000, carries the issuer built from the region
    and pool of the settings and the token use "access"; at time 1000 the
    verifier refuses it, because its ["nbf"] is 2000. *)
Lemma verify_refuses_valid_token_not_yet_valid :
  Strict.tokens !! "early" ≫= Fabricated.header
  = Some {[ "alg" := JStr "RS256"; "kid" := JStr Fabricated.TEST_KID ]}
  /\ Fabricated.FAKE_JWKS !! Fabricated.TEST_KID = Some Fabricated.test_key
  /\ Strict.verifies Strict.tokens "early" Fabricated.test_key = true
  /\ (exists c,
        Strict.payload_of Strict.tokens "early" = Some c
        /\ expired 1000 c = false
        /\ c !! "iss" = Some (JStr (expected_issuer Strict.eu_settings))
        /\ c !! "token_use" = Some (JStr "access"))
  /\ @_verify_cognito_jwt (Strict.lib Strict.tokens) Strict.eu_settings 1000
       "early" Fabricated.FAKE_JWKS
     = HTTPError VerificationFailed.
Proof.
  split; [reflexivity|]. split; [reflexivity|]. split; [reflexivity|].
  split; [|reflexivity].
  eexists. split; [reflexivity|]. repeat split; reflexivity.
Qed.

Lemma verify_accepts_signed_unexpired_access_token_witness :
  exists returned,
    @_verify_cognito_jwt (Strict.lib Strict.tokens) Strict.eu_settings 1000
      "current" Fabricated.FAKE_JWKS = Ok returned
    /\ returned !! "sub" = Some (JStr "sub-officer").
Proof.
  destruct (@verify_accepts_signed_unexpired_access_token
              (Strict.lib Strict.tokens) (strict_spec Strict.tokens)
              Strict.eu_settings 1000 "current" Fabricated.FAKE_JWKS
              {[ "alg" := JStr "RS256"; "kid" := JStr Fabricated.TEST_KID ]}
              Fabricated.TEST_KID Fabricated.test_key
              (Fabricated.claims
                 (Strict.access_token
                    "https://cognito-idp.eu-west-1.amazonaws.com/eu-west-1_Pool9"
                    900 5000))
              eq_refl eq_refl eq_refl eq_refl eq_refl eq_refl eq_refl
              eq_refl eq_refl)
    as (returned & Hok & _ & Hsub).
  exists returned. split; [exact Hok|]. rewrite Hsub. reflexivity.
Defined.

(** The issuer follows the settings: under the test settings, whose region
    and pool are others, the same token is refused for its issuer. *)
Example verify_issuer_follows_settings :
  @_verify_cognito_jwt (Strict.lib Strict.tokens) prod_settings 1000
    "current" Fabricated.FAKE_JWKS
  = HTTPError WrongIssuer
  /\ expected_issuer Strict.eu_settings
     = "https://cognito-idp.eu-west-1.amazonaws.com/eu-west-1_Pool9"
  /\ expected_issuer prod_settings
     = "https://cognito-idp.ap-southeast-7.amazonaws.com/ap-southeast-7_TestPool".
Proof. repeat split; reflexivity. Qed.

(* ===================================================================== *)
(** * Paging through [list_users] *)
(* ===================================================================== *)

Lemma list_users_body_reads_table (page page_size : Z) (st st' : Backend) :
  users_table st = users_table st' ->
  list_users_body page page_size st = list_users_body page page_size st'.
Proof. intros Ht. unfold list_users_body. rewrite Ht. reflexivity. Qed.

(** Each page is answered by a query of its own; [scan i] is the table as
    the store yields it to the request for page [i + 1].  If the store
    yields the rows in one and the same order [tbl] to every one of these
    requests, the pages from the first to the last announced, put end to
    end, are the rows of [tbl], each once. *)
Theorem list_users_pages_cover_stable_scan (page_size : Z)
    (scan : nat -> Backend) (tbl : list UserRow) (resp : UserListResponse) :
  1 <= page_size ->
  (forall i, users_table (scan i) = tbl) ->
  list_users_body 1 page_size (scan 0%nat) = Returned resp ->
  flat_map
    (fun i => items_of (list_users_body (Z.of_nat i + 1) page_size (scan i)))
    (seq 0 (Z.to_nat (l_pages resp)))
  = map model_validate tbl.
Proof.
  intros Hs Hstable Hfirst.
  rewrite <- (Hstable 0%nat).
  rewrite <- (pages_of_one_scan page_size (scan 0%nat) resp Hs Hfirst).
  apply flat_map_ext. intros i. f_equal.
  apply list_users_body_reads_table.
  rewrite (Hstable i), (Hstable 0%nat). reflexivity.
Qed.

Lemma list_users_pages_cover_stable_scan_witness :
  flat_map
    (fun i => items_of (list_users_body (Z.of_nat i + 1) 3 office))
    (seq 0 2)
  = map model_validate (users_table office).
Proof.
  refine (list_users_pages_cover_stable_scan 3 (fun _ => office)
            (users_table office)
            {| l_items := map model_validate (take 3 (users_table office));
               l_total := 4; l_page := 1; l_page_size := 3; l_pages := 2 |}
            _ (fun _ => eq_refl) eq_refl).
  lia.
Defined.

(** Without that stability nothing of the kind holds: the same two rows,
    yielded in one order to the first request and in the other to the
    second, give the first row on both pages and the second on none. *)
Lemma list_users_pages_unstable_scan :
  items_of (list_users_body 1 1 scan_forward)
  = [model_validate (as_row Fabricated.admin_old)]
  /\ items_of (list_users_body 2 1 scan_backward)
     = [model_validate (as_row Fabricated.admin_old)].
Proof. split; reflexivity. Qed.
